(** * logs_dashboard: the log API handlers of backend/app/routers/logs.py

    The handlers are embedded as pure functions over the rows of the
    [logs] table.  A request gets the table, the value of the clock for
    the request ([datetime.utcnow()] and the store's [now()]) and its
    parameters, and gives back an outcome together with the table after
    the request.

    Conventions of the embedding:
    - a [datetime] is an instant, in microseconds since the epoch (UTC);
    - the relational store is the list of its rows; [select ... where]
      is [filter], [order_by] a stable sort of the rows in table order,
      [group_by] with [count] an association list of keys and counts;
    - an exception leaving a handler is a [Raise] outcome, and the
      session of backend/app/database.py rolls the table back;
    - a text is the list of the bytes of its UTF-8 form; patterns are
      matched on texts of ASCII characters;
    - an id beyond the 32-bit range of its column, and an offset beyond
      the 64-bit range, make the query fail before it reaches the table. *)

From Stdlib Require Import ZArith List Bool Lia Permutation Sorted.
From Stdlib Require Import Ascii String DecimalString DecimalZ.
Import ListNotations.

Local Open Scope string_scope.
Local Open Scope list_scope.
Local Open Scope Z_scope.

(** ** Dates and instants *)

Module Datetime.

Definition datetime := Z.
Definition date := Z.

Definition microseconds_per_day : Z := 86400 * 1000000.

(** [timedelta(days=n)] *)
Definition timedelta_days (n : Z) : Z := n * microseconds_per_day.

(** [cast(Log.timestamp, Date)]: the calendar day of an instant, as the
    number of days since the epoch. *)
Definition cast_Date (t : datetime) : date := t / microseconds_per_day.

Definition digit (n : Z) : ascii := ascii_of_nat (48 + Z.to_nat (n mod 10)).

Definition pad2 (n : Z) : string :=
  String (digit (n / 10)) (String (digit n) EmptyString).

Definition pad4 (n : Z) : string :=
  String (digit (n / 1000)) (String (digit (n / 100)) (pad2 n)).

Definition pad6 (n : Z) : string :=
  String (digit (n / 100000)) (String (digit (n / 10000)) (pad4 n)).

(** Year, month and day of a day number (proleptic Gregorian calendar). *)
Definition civil (d : date) : Z * Z * Z :=
  let z := d + 719468 in
  let era := z / 146097 in
  let doe := z - era * 146097 in
  let yoe := (doe - doe / 1460 + doe / 36524 - doe / 146096) / 365 in
  let doy := doe - (365 * yoe + yoe / 4 - yoe / 100) in
  let mp := (5 * doy + 2) / 153 in
  let day := doy - (153 * mp + 2) / 5 + 1 in
  let month := if mp <? 10 then mp + 3 else mp - 9 in
  let year := yoe + era * 400 + (if month <=? 2 then 1 else 0) in
  (year, month, day).

(** [str(d)] of a [date]: YYYY-MM-DD. *)
Definition date_str (d : date) : string :=
  let '(y, m, dd) := civil d in
  (pad4 y ++ "-" ++ pad2 m ++ "-" ++ pad2 dd)%string.

(** [t.isoformat()] of an aware UTC [datetime]. *)
Definition isoformat (t : datetime) : string :=
  let us := t mod microseconds_per_day in
  let s := us / 1000000 in
  let frac := us mod 1000000 in
  (date_str (cast_Date t) ++ "T" ++ pad2 (s / 3600) ++ ":"
    ++ pad2 (s / 60 mod 60) ++ ":" ++ pad2 (s mod 60)
    ++ (if (frac =? 0)%Z then EmptyString else "." ++ pad6 frac) ++ "+00:00")%string.

End Datetime.

Export Datetime.

(** ** The persistence schema: backend/app/models/log.py *)

Inductive LogSeverity : Type :=
  | DEBUG
  | INFO
  | WARNING
  | ERROR
  | CRITICAL.

Module Severity.

(** [LogSeverity.value] *)
Definition value (s : LogSeverity) : string :=
  match s with
  | DEBUG => "DEBUG"
  | INFO => "INFO"
  | WARNING => "WARNING"
  | ERROR => "ERROR"
  | CRITICAL => "CRITICAL"
  end.

(** Position in the declaration of the enumeration: the store orders an
    enumerated column by it. *)
Definition rank (s : LogSeverity) : Z :=
  match s with
  | DEBUG => 0
  | INFO => 1
  | WARNING => 2
  | ERROR => 3
  | CRITICAL => 4
  end.

Definition eqb (a b : LogSeverity) : bool := rank a =? rank b.

Lemma eqb_spec (a b : LogSeverity) : reflect (a = b) (eqb a b).
Proof. destruct a, b; constructor; congruence. Qed.

Lemma eqb_refl (a : LogSeverity) : eqb a a = true.
Proof. destruct a; reflexivity. Qed.

End Severity.

Module Log.

Record t : Type := mk {
  id : Z;
  timestamp : datetime;
  message : string;
  severity : LogSeverity;
  source : string;
  metadata_json : option string;
  created_at : datetime;
  updated_at : datetime
}.

(** The mapped columns of the class. *)
Inductive column : Type :=
  | c_id
  | c_timestamp
  | c_message
  | c_severity
  | c_source
  | c_metadata_json
  | c_created_at
  | c_updated_at.

Definition column_named (name : string) : option column :=
  if (name =? "id")%string then Some c_id
  else if (name =? "timestamp")%string then Some c_timestamp
  else if (name =? "message")%string then Some c_message
  else if (name =? "severity")%string then Some c_severity
  else if (name =? "source")%string then Some c_source
  else if (name =? "metadata_json")%string then Some c_metadata_json
  else if (name =? "created_at")%string then Some c_created_at
  else if (name =? "updated_at")%string then Some c_updated_at
  else None.

(** A null sorts after every value, as in the store. *)
Definition compare_nullable (a b : option string) : comparison :=
  match a, b with
  | None, None => Eq
  | None, Some _ => Gt
  | Some _, None => Lt
  | Some x, Some y => String.compare x y
  end.

(** The order of the store on the values of a column. *)
Definition compare_by (c : column) (a b : t) : comparison :=
  match c with
  | c_id => id a ?= id b
  | c_timestamp => timestamp a ?= timestamp b
  | c_message => String.compare (message a) (message b)
  | c_severity => Severity.rank (severity a) ?= Severity.rank (severity b)
  | c_source => String.compare (source a) (source b)
  | c_metadata_json => compare_nullable (metadata_json a) (metadata_json b)
  | c_created_at => created_at a ?= created_at b
  | c_updated_at => updated_at a ?= updated_at b
  end.

End Log.

(** The [logs] table with the sequence of its primary key. *)
Record Database : Type := mkDatabase {
  rows : list Log.t;
  logs_id_seq : Z
}.

(** ** Outcomes of a request *)

Inductive Error : Type :=
  | HTTP_404_NOT_FOUND
  | HTTP_422_VALIDATION
  | HTTP_500_INTERNAL.

Inductive outcome (A : Type) : Type :=
  | Return (a : A)
  | Raise (e : Error).

Arguments Return {A} a.
Arguments Raise {A} e.

(** ** Ranges of the store *)

(** The ids are in a 32-bit column, fed by a 32-bit sequence; an offset is
    sent to the store as a 64-bit value.  A value beyond the range makes
    the query fail before it runs, and the request ends in a server
    error. *)
Definition int32_min : Z := -2147483648.
Definition int32_max : Z := 2147483647.
Definition int64_max : Z := 9223372036854775807.

Definition in_int32 (n : Z) : bool := (int32_min <=? n) && (n <=? int32_max).

(** ** The queries the handlers send to the store *)

Module Query.

Section Rows.

Context {A : Type}.

(** [and_] of the conditions of a query. *)
Definition and_ (conditions : list (A -> bool)) (r : A) : bool :=
  forallb (fun c => c r) conditions.

(** [query.where] of the conjunction, applied [if conditions]. *)
Definition where_if (conditions : list (A -> bool)) (l : list A) : list A :=
  match conditions with
  | [] => l
  | _ :: _ => filter (and_ conditions) l
  end.

Definition offset (n : Z) (l : list A) : list A := skipn (Z.to_nat n) l.

Definition limit (n : Z) (l : list A) : list A := firstn (Z.to_nat n) l.

(** [func.count(Log.id)] *)
Definition count (l : list A) : Z := Z.of_nat (List.length l).

Variable le : A -> A -> bool.

Fixpoint insert (x : A) (l : list A) : list A :=
  match l with
  | [] => [x]
  | y :: l' => if le x y then x :: l else y :: insert x l'
  end.

(** [order_by].  The store promises no order among rows that the order
    does not tell apart; here they stay in the order they had. *)
Definition order_by (l : list A) : list A := fold_right insert [] l.

End Rows.

Definition asc {A : Type} (cmp : A -> A -> comparison) (a b : A) : bool :=
  match cmp a b with Gt => false | _ => true end.

Definition desc {A : Type} (cmp : A -> A -> comparison) (a b : A) : bool :=
  match cmp a b with Lt => false | _ => true end.

Section Group.

Context {A K : Type}.
Variable eqb : K -> K -> bool.
Variable key : A -> K.

Fixpoint bump (k : K) (groups : list (K * Z)) : list (K * Z) :=
  match groups with
  | [] => [(k, 1)]
  | (k', n) :: groups' =>
      if eqb k k' then (k', n + 1) :: groups'
      else (k', n) :: bump k groups'
  end.

(** [select(key, func.count(Log.id)).group_by(key)]: the groups in the
    order of the first row of each. *)
Definition group_count (l : list A) : list (K * Z) :=
  fold_left (fun groups r => bump (key r) groups) l [].

End Group.

Definition sum_counts {K : Type} (groups : list (K * Z)) : Z :=
  fold_right (fun g acc => snd g + acc) 0 groups.

(** *** Case-insensitive pattern matching *)

Definition backslash : ascii := ascii_of_nat 92.

Definition lower (c : ascii) : ascii :=
  let n := nat_of_ascii c in
  if ((65 <=? n) && (n <=? 90))%nat then ascii_of_nat (n + 32) else c.

Definition lower_string (s : string) : string :=
  string_of_list_ascii (map lower (list_ascii_of_string s)).

Inductive like_token : Type :=
  | Any_sequence
  | Any_one
  | Literal (c : ascii).

(** [%] stands for any sequence, [_] for any one character and a
    backslash takes the next character as it is.  A backslash that ends
    the pattern, which the patterns of the handlers never have, stands
    for itself. *)
Fixpoint like_tokens (p : list ascii) : list like_token :=
  match p with
  | [] => []
  | c :: p' =>
      if Ascii.eqb c "%" then Any_sequence :: like_tokens p'
      else if Ascii.eqb c "_" then Any_one :: like_tokens p'
      else if Ascii.eqb c backslash then
        match p' with
        | [] => [Literal c]
        | d :: p'' => Literal d :: like_tokens p''
        end
      else Literal c :: like_tokens p'
  end.

Fixpoint like_match (p : list like_token) (s : list ascii) : bool :=
  match p with
  | [] => match s with [] => true | _ :: _ => false end
  | Any_sequence :: p' =>
      (fix skip (s : list ascii) : bool :=
         like_match p' s
         || match s with [] => false | _ :: s' => skip s' end) s
  | Any_one :: p' =>
      match s with [] => false | _ :: s' => like_match p' s' end
  | Literal c :: p' =>
      match s with
      | [] => false
      | d :: s' => Ascii.eqb (lower c) (lower d) && like_match p' s'
      end
  end.

(** [column.ilike(pattern)], for values and patterns of ASCII characters:
    the letters A to Z are the ones whose case is ignored. *)
Definition ilike (value pattern : string) : bool :=
  like_match (like_tokens (list_ascii_of_string pattern))
             (list_ascii_of_string value).

End Query.

(** ** The validation layer: backend/app/schemas/log.py *)

(** A field of a request model: left out of the payload, or given, and
    then given as [null] or with a value. *)
Inductive field (A : Type) : Type :=
  | Unset
  | Given (v : option A).

Arguments Unset {A}.
Arguments Given {A} v.

(** A value of a JSON request body. *)
Inductive json : Type :=
  | JNull
  | JString (s : string)
  | JNumber (n : Z)
  | JBool (b : bool).

(** The member of a JSON object: of two members of one name the later counts. *)
Fixpoint json_get (key : string) (body : list (string * json)) : option json :=
  match body with
  | [] => None
  | (k, v) :: body' =>
      match json_get key body' with
      | Some v' => Some v'
      | None => if (k =? key)%string then Some v else None
      end
  end.

(** The number of characters of a text in UTF-8: the bytes that do not
    continue a character. *)
Definition continues_character (c : ascii) : bool :=
  let n := nat_of_ascii c in ((128 <=? n) && (n <? 192))%nat.

Definition str_length (s : string) : Z :=
  Z.of_nat
    (List.length
       (filter (fun c => negb (continues_character c))
               (list_ascii_of_string s))).

(** [Optional[str] = Field(None, min_length=lo, max_length=hi)] *)
Definition validate_str (lo hi : Z) (j : option json) : option (field string) :=
  match j with
  | None => Some Unset
  | Some JNull => Some (Given None)
  | Some (JString s) =>
      if (lo <=? str_length s) && (str_length s <=? hi)
      then Some (Given (Some s)) else None
  | Some _ => None
  end.

(** [Optional[str] = None] *)
Definition validate_any_str (j : option json) : option (field string) :=
  match j with
  | None => Some Unset
  | Some JNull => Some (Given None)
  | Some (JString s) => Some (Given (Some s))
  | Some _ => None
  end.

Definition severity_of_value (s : string) : option LogSeverity :=
  if (s =? "DEBUG")%string then Some DEBUG
  else if (s =? "INFO")%string then Some INFO
  else if (s =? "WARNING")%string then Some WARNING
  else if (s =? "ERROR")%string then Some ERROR
  else if (s =? "CRITICAL")%string then Some CRITICAL
  else None.

(** [Optional[LogSeverity] = None] *)
Definition validate_severity (j : option json) : option (field LogSeverity) :=
  match j with
  | None => Some Unset
  | Some JNull => Some (Given None)
  | Some (JString s) =>
      match severity_of_value s with
      | Some v => Some (Given (Some v))
      | None => None
      end
  | Some _ => None
  end.

Module LogCreate.

Record t : Type := mk {
  message : string;
  severity : LogSeverity;
  source : string;
  metadata_json : option string;
  timestamp : option datetime
}.

End LogCreate.

Module LogUpdate.

Record t : Type := mk {
  message : field string;
  severity : field LogSeverity;
  source : field string;
  metadata_json : field string
}.

(** The model of a request body.  The model declares these four fields
    and no other; a member of the body of another name is ignored. *)
Definition model_validate (body : list (string * json)) : option t :=
  match validate_str 1 10000 (json_get "message" body),
        validate_severity (json_get "severity" body),
        validate_str 1 255 (json_get "source" body),
        validate_any_str (json_get "metadata_json" body) with
  | Some m, Some sv, Some src, Some md => Some (mk m sv src md)
  | _, _, _, _ => None
  end.

End LogUpdate.

Module LogListResponse.

Record t : Type := mk {
  items : list Log.t;
  total : Z;
  page : Z;
  page_size : Z;
  total_pages : Z
}.

End LogListResponse.

Module LogAggregation.

Record t : Type := mk {
  label : string;
  count : Z
}.

End LogAggregation.

Module LogTrend.

Record t : Type := mk {
  date : string;
  count : Z;
  severity : option string
}.

End LogTrend.

Module LogStats.

(** [date_range] holds the two dates as they were given: their text in
    the answer keeps the notation of the request. *)
Record t : Type := mk {
  total_logs : Z;
  severity_breakdown : list LogAggregation.t;
  source_breakdown : list LogAggregation.t;
  trend_data : list LogTrend.t;
  date_range : option datetime * option datetime
}.

End LogStats.

Module StreamingResponse.

Record t : Type := mk {
  body : string;
  media_type : string;
  content_disposition : string
}.

End StreamingResponse.

(** backend/app/config.py *)
Module settings.

Definition DEFAULT_PAGE_SIZE : Z := 20.
Definition MAX_PAGE_SIZE : Z := 100.

End settings.

(** ** The request handlers: backend/app/routers/logs.py *)

Definition condition : Type := Log.t -> bool.

(** [if p: conditions.append(c)] for a date or a severity, every value of
    which is true. *)
Definition when_given {A : Type} (p : option A) (c : A -> condition)
  : list condition :=
  match p with
  | Some v => [c v]
  | None => []
  end.

(** [if p: conditions.append(c)] for a string: the empty string is false. *)
Definition when_nonempty (p : option string) (c : string -> condition)
  : list condition :=
  match p with
  | Some s => if (s =? EmptyString)%string then [] else [c s]
  | None => []
  end.

(** [Log.timestamp >= d] *)
Definition timestamp_ge (d : datetime) : condition :=
  fun l => d <=? Log.timestamp l.

(** [Log.timestamp <= d] *)
Definition timestamp_le (d : datetime) : condition :=
  fun l => Log.timestamp l <=? d.

(** [Log.severity == s] *)
Definition severity_eq (s : LogSeverity) : condition :=
  fun l => Severity.eqb (Log.severity l) s.

(** [Log.source == s] *)
Definition source_eq (s : string) : condition :=
  fun l => (Log.source l =? s)%string.

(** [Log.source.ilike(f"%{s}%")] *)
Definition source_ilike (s : string) : condition :=
  fun l => Query.ilike (Log.source l) ("%" ++ s ++ "%")%string.

(** [Log.message.ilike(f"%{s}%")] *)
Definition message_ilike (s : string) : condition :=
  fun l => Query.ilike (Log.message l) ("%" ++ s ++ "%")%string.

(** [datetime.utcnow() - timedelta(days=30)], where [now] is the instant
    that the store takes the value of the handler's clock for. *)
Definition thirty_days_ago (now : datetime) : datetime :=
  now - timedelta_days 30.

(** *** create_log *)

(** The handler reads its own clock for the default of the timestamp,
    [utcnow]: the instant that the store takes that value for; the store
    reads its clock, [now], for [created_at] and [updated_at].  The id
    comes from the sequence, which fails once it is beyond its range. *)
Definition create_log (utcnow now : datetime) (db : Database)
    (log_data : LogCreate.t) : outcome Log.t * Database :=
  if negb (in_int32 (logs_id_seq db)) then (Raise HTTP_500_INTERNAL, db)
  else
    let log :=
      Log.mk (logs_id_seq db)
             (match LogCreate.timestamp log_data with
              | Some t => t
              | None => utcnow
              end)
             (LogCreate.message log_data)
             (LogCreate.severity log_data)
             (LogCreate.source log_data)
             (LogCreate.metadata_json log_data)
             now now in
    (Return log, mkDatabase (rows db ++ [log]) (logs_id_seq db + 1)).

(** *** list_logs *)

Inductive attribute : Type :=
  | Column (c : Log.column)
  | Not_a_column.

Definition list_conditions (start_date end_date : option datetime)
    (severity : option LogSeverity) (source search : option string)
  : list condition :=
  when_given start_date timestamp_ge
  ++ when_given end_date timestamp_le
  ++ when_given severity severity_eq
  ++ when_nonempty source source_ilike
  ++ when_nonempty search message_ilike.

(** The entries that the query and the count query of [list_logs] select. *)
Definition list_selected (db : Database)
    (start_date end_date : option datetime) (severity : option LogSeverity)
    (source search : option string) : list Log.t :=
  Query.where_if
    (list_conditions start_date end_date severity source search) (rows db).

Section ClassOfLog.

(** The names that the class [Log] gets from [Base], which
    backend/app/database.py derives from a class of the mapper library:
    [metadata], which [init_db] reads, is one of them. *)
Variable inherited : string -> bool.

(** [getattr(Log, name, default)]: a mapped column, another attribute
    of the class ([__tablename__] and [__repr__] are set in its body),
    or the default. *)
Definition getattr_Log (name : string) (default : attribute) : attribute :=
  match Log.column_named name with
  | Some c => Column c
  | None =>
      if (name =? "__tablename__")%string || (name =? "__repr__")%string
         || inherited name
      then Not_a_column
      else default
  end.

Definition list_logs (db : Database) (page page_size : Z)
    (start_date end_date : option datetime) (severity : option LogSeverity)
    (source search : option string) (sort_by sort_order : string)
  : outcome LogListResponse.t :=
  if negb (1 <=? page) then Raise HTTP_422_VALIDATION
  else if negb ((1 <=? page_size) && (page_size <=? settings.MAX_PAGE_SIZE))
  then Raise HTTP_422_VALIDATION
  else
    let query :=
      list_selected db start_date end_date severity source search in
    let total :=
      Query.count
        (list_selected db start_date end_date severity source search) in
    match getattr_Log sort_by (Column Log.c_timestamp) with
    | Not_a_column => Raise HTTP_500_INTERNAL
    | Column sort_column =>
        let query :=
          if (Query.lower_string sort_order =? "asc")%string
          then Query.order_by (Query.asc (Log.compare_by sort_column)) query
          else Query.order_by (Query.desc (Log.compare_by sort_column)) query in
        let offset := (page - 1) * page_size in
        if int64_max <? offset then Raise HTTP_500_INTERNAL
        else
          let logs := Query.limit page_size (Query.offset offset query) in
          let total_pages := (total + page_size - 1) / page_size in
          Return (LogListResponse.mk logs total page page_size total_pages)
    end.

End ClassOfLog.

(** *** get_sources *)

Fixpoint distinct (l : list string) : list string :=
  match l with
  | [] => []
  | s :: l' => s :: filter (fun s' => negb (s' =? s)%string) (distinct l')
  end.

Definition get_sources (db : Database) : outcome (list string) :=
  Return (Query.order_by (Query.asc String.compare)
            (distinct (map Log.source (rows db)))).

(** *** get_log_stats *)

Definition stats_conditions (start_date end_date : option datetime)
    (source : option string) : list condition :=
  when_given start_date timestamp_ge
  ++ when_given end_date timestamp_le
  ++ when_nonempty source source_eq.

Definition by_count {K : Type} (a b : K * Z) : comparison := snd a ?= snd b.

Definition by_date {B : Type} (a b : date * B) : comparison := fst a ?= fst b.

(** The entries that the total and the two breakdowns count. *)
Definition stats_selected (db : Database)
    (start_date end_date : option datetime) (source : option string)
  : list Log.t :=
  Query.where_if (stats_conditions start_date end_date source) (rows db).

(** The entries that the trend of the statistics counts. *)
Definition stats_trend_selected (now : datetime) (db : Database)
    (start_date end_date : option datetime) (source : option string)
  : list Log.t :=
  match stats_conditions start_date end_date source with
  | _ :: _ =>
      filter (Query.and_ (stats_conditions start_date end_date source)) (rows db)
  | [] => filter (timestamp_ge (thirty_days_ago now)) (rows db)
  end.

Definition get_log_stats (now : datetime) (db : Database)
    (start_date end_date : option datetime) (source : option string)
  : outcome LogStats.t :=
  let total_logs :=
    Query.count (stats_selected db start_date end_date source) in
  let severity_breakdown :=
    map (fun row => LogAggregation.mk (Severity.value (fst row)) (snd row))
        (Query.order_by (Query.desc by_count)
           (Query.group_count Severity.eqb Log.severity
              (stats_selected db start_date end_date source))) in
  let source_breakdown :=
    map (fun row => LogAggregation.mk (fst row) (snd row))
        (Query.limit 10
           (Query.order_by (Query.desc by_count)
              (Query.group_count String.eqb Log.source
                 (stats_selected db start_date end_date source)))) in
  let trend_data :=
    map (fun row => LogTrend.mk (date_str (fst row)) (snd row) None)
        (Query.order_by (Query.asc by_date)
           (Query.group_count Z.eqb (fun l => cast_Date (Log.timestamp l))
              (stats_trend_selected now db start_date end_date source))) in
  Return (LogStats.mk total_logs severity_breakdown source_breakdown trend_data
            (start_date, end_date)).

(** *** get_log_trend *)

Definition trend_conditions (now : datetime)
    (start_date end_date : option datetime) (severity : option LogSeverity)
    (source : option string) : list condition :=
  when_given start_date timestamp_ge
  ++ when_given end_date timestamp_le
  ++ when_given severity severity_eq
  ++ when_nonempty source source_eq
  ++ match start_date, end_date with
     | None, None => [timestamp_ge (thirty_days_ago now)]
     | _, _ => []
     end.

Definition day_severity_eqb (a b : date * LogSeverity) : bool :=
  (fst a =? fst b) && Severity.eqb (snd a) (snd b).

(** The entries that [get_log_trend] counts. *)
Definition trend_selected (now : datetime) (db : Database)
    (start_date end_date : option datetime) (severity : option LogSeverity)
    (source : option string) : list Log.t :=
  let conditions := trend_conditions now start_date end_date severity source in
  filter (match conditions with
          | _ :: _ => Query.and_ conditions
          | [] => fun _ => true
          end) (rows db).

Definition get_log_trend (now : datetime) (db : Database)
    (start_date end_date : option datetime) (severity : option LogSeverity)
    (source : option string) (group_by_severity : bool)
  : outcome (list LogTrend.t) :=
  let selected :=
    trend_selected now db start_date end_date severity source in
  if group_by_severity then
    Return
      (map (fun row =>
              LogTrend.mk (date_str (fst (fst row))) (snd row)
                          (Some (Severity.value (snd (fst row)))))
           (Query.order_by
              (Query.asc (fun a b => fst (fst a) ?= fst (fst b)))
              (Query.group_count day_severity_eqb
                 (fun l => (cast_Date (Log.timestamp l), Log.severity l))
                 selected)))
  else
    Return
      (map (fun row => LogTrend.mk (date_str (fst row)) (snd row) None)
           (Query.order_by (Query.asc by_date)
              (Query.group_count Z.eqb (fun l => cast_Date (Log.timestamp l))
                 selected))).

(** *** export_logs_csv *)

Module csv.

Definition quotechar : ascii := ascii_of_nat 34.
Definition CR : ascii := ascii_of_nat 13.
Definition LF : ascii := ascii_of_nat 10.

Definition lineterminator : string := String CR (String LF EmptyString).

Definition special (c : ascii) : bool :=
  Ascii.eqb c "," || Ascii.eqb c quotechar || Ascii.eqb c CR || Ascii.eqb c LF.

Definition needs_quotes (s : string) : bool :=
  existsb special (list_ascii_of_string s).

Fixpoint double_quotes (s : string) : string :=
  match s with
  | EmptyString => EmptyString
  | String c s' =>
      if Ascii.eqb c quotechar
      then String c (String c (double_quotes s'))
      else String c (double_quotes s')
  end.

Definition write_field (s : string) : string :=
  if needs_quotes s
  then String quotechar (double_quotes s ++ String quotechar EmptyString)%string
  else s.

(** [writer.writerow(fields)] of the default dialect: the text added to
    the buffer. *)
Definition writerow (fields : list string) : string :=
  (String.concat "," (map write_field fields) ++ lineterminator)%string.

End csv.

Definition export_conditions (start_date end_date : option datetime)
    (severity : option LogSeverity) (source : option string) : list condition :=
  when_given start_date timestamp_ge
  ++ when_given end_date timestamp_le
  ++ when_given severity severity_eq
  ++ when_nonempty source source_eq.

Definition export_header : list string :=
  ["ID"; "Timestamp"; "Severity"; "Source"; "Message"].

Definition export_row (log : Log.t) : list string :=
  [NilZero.string_of_int (Z.to_int (Log.id log));
   isoformat (Log.timestamp log);
   Severity.value (Log.severity log);
   Log.source log;
   Log.message log].

(** The entries that [export_logs_csv] selects. *)
Definition export_selected (db : Database)
    (start_date end_date : option datetime) (severity : option LogSeverity)
    (source : option string) : list Log.t :=
  Query.where_if (export_conditions start_date end_date severity source)
                 (rows db).

(** The rows that the handler passes to the writer, the header first. *)
Definition export_rows (db : Database) (start_date end_date : option datetime)
    (severity : option LogSeverity) (source : option string)
  : list (list string) :=
  let logs :=
    Query.order_by (Query.desc (Log.compare_by Log.c_timestamp))
      (export_selected db start_date end_date severity source) in
  export_header :: map export_row logs.

(** [now.strftime('%Y%m%d_%H%M%S')] *)
Definition strftime_compact (t : datetime) : string :=
  let '(y, m, d) := civil (cast_Date t) in
  let s := t mod microseconds_per_day / 1000000 in
  (pad4 y ++ pad2 m ++ pad2 d ++ "_"
     ++ pad2 (s / 3600) ++ pad2 (s / 60 mod 60) ++ pad2 (s mod 60))%string.

Definition export_logs_csv (now : datetime) (db : Database)
    (start_date end_date : option datetime) (severity : option LogSeverity)
    (source : option string) : outcome StreamingResponse.t :=
  Return
    (StreamingResponse.mk
       (String.concat EmptyString
          (map csv.writerow
               (export_rows db start_date end_date severity source)))
       "text/csv"
       ("attachment; filename=logs_export_" ++ strftime_compact now ++ ".csv")%string).

(** *** get_log *)

(** [select(Log).where(Log.id == log_id)], then [first()], for an id in
    the range of the column. *)
Definition first_by_id (db : Database) (log_id : Z) : option Log.t :=
  find (fun l => Log.id l =? log_id) (rows db).

Definition get_log (db : Database) (log_id : Z) : outcome Log.t :=
  if negb (in_int32 log_id) then Raise HTTP_500_INTERNAL
  else
    match first_by_id db log_id with
    | None => Raise HTTP_404_NOT_FOUND
    | Some log => Return log
    end.

(** *** update_log *)

(** An item of [log_data.model_dump(exclude_unset=True)]. *)
Inductive assignment : Type :=
  | set_message (v : option string)
  | set_severity (v : option LogSeverity)
  | set_source (v : option string)
  | set_metadata_json (v : option string).

Definition dump_field {A : Type} (f : field A) (k : option A -> assignment)
  : list assignment :=
  match f with
  | Unset => []
  | Given v => [k v]
  end.

Definition model_dump_exclude_unset (log_data : LogUpdate.t) : list assignment :=
  dump_field (LogUpdate.message log_data) set_message
  ++ dump_field (LogUpdate.severity log_data) set_severity
  ++ dump_field (LogUpdate.source log_data) set_source
  ++ dump_field (LogUpdate.metadata_json log_data) set_metadata_json.

(** The attributes of a loaded entry that the handler can set: each may
    hold [None] until the session flushes. *)
Record instance : Type := mkInstance {
  i_message : option string;
  i_severity : option LogSeverity;
  i_source : option string;
  i_metadata_json : option string
}.

Definition loaded (log : Log.t) : instance :=
  mkInstance (Some (Log.message log)) (Some (Log.severity log))
             (Some (Log.source log)) (Log.metadata_json log).

Definition setattr (i : instance) (a : assignment) : instance :=
  match a with
  | set_message v =>
      mkInstance v (i_severity i) (i_source i) (i_metadata_json i)
  | set_severity v =>
      mkInstance (i_message i) v (i_source i) (i_metadata_json i)
  | set_source v =>
      mkInstance (i_message i) (i_severity i) v (i_metadata_json i)
  | set_metadata_json v =>
      mkInstance (i_message i) (i_severity i) (i_source i) v
  end.

Definition option_eqb {A : Type} (eqb : A -> A -> bool) (a b : option A) : bool :=
  match a, b with
  | None, None => true
  | Some x, Some y => eqb x y
  | _, _ => false
  end.

Definition instance_eqb (a b : instance) : bool :=
  option_eqb String.eqb (i_message a) (i_message b)
  && option_eqb Severity.eqb (i_severity a) (i_severity b)
  && option_eqb String.eqb (i_source a) (i_source b)
  && option_eqb String.eqb (i_metadata_json a) (i_metadata_json b).

(** [db.flush()] and [db.refresh(log)]: without a net change no UPDATE is
    sent and the row stays as it is; otherwise the row is written with
    [updated_at] set by the store, unless a column that holds no null is
    [None], which the store refuses. *)
Definition flush (now : datetime) (log : Log.t) (i : instance) : option Log.t :=
  if instance_eqb (loaded log) i then Some log
  else
    match i_message i, i_severity i, i_source i with
    | Some m, Some sv, Some src =>
        Some (Log.mk (Log.id log) (Log.timestamp log) m sv src
                     (i_metadata_json i) (Log.created_at log) now)
    | _, _, _ => None
    end.

Definition write_row (db : Database) (log : Log.t) : Database :=
  mkDatabase
    (map (fun l => if Log.id l =? Log.id log then log else l) (rows db))
    (logs_id_seq db).

Definition update_log (now : datetime) (db : Database) (log_id : Z)
    (log_data : LogUpdate.t) : outcome Log.t * Database :=
  if negb (in_int32 log_id) then (Raise HTTP_500_INTERNAL, db)
  else
    match first_by_id db log_id with
    | None => (Raise HTTP_404_NOT_FOUND, db)
    | Some log =>
        let update_data := model_dump_exclude_unset log_data in
        match flush now log (fold_left setattr update_data (loaded log)) with
        | None => (Raise HTTP_500_INTERNAL, db)
        | Some log' => (Return log', write_row db log')
        end
    end.

(** The route [PUT /logs/{log_id}]: the body is validated into the model
    before the handler runs. *)
Definition put_log (now : datetime) (db : Database) (log_id : Z)
    (body : list (string * json)) : outcome Log.t * Database :=
  match LogUpdate.model_validate body with
  | None => (Raise HTTP_422_VALIDATION, db)
  | Some log_data => update_log now db log_id log_data
  end.

(** *** delete_log *)

Definition delete_log (db : Database) (log_id : Z) : outcome unit * Database :=
  if negb (in_int32 log_id) then (Raise HTTP_500_INTERNAL, db)
  else
    match first_by_id db log_id with
    | None => (Raise HTTP_404_NOT_FOUND, db)
    | Some log =>
        (Return tt,
         mkDatabase (filter (fun l => negb (Log.id l =? Log.id log)) (rows db))
                    (logs_id_seq db))
    end.

(** ** Sample data *)

Definition day (n : Z) : datetime := n * microseconds_per_day.

Definition boot : Log.t :=
  Log.mk 1 (day 19000) "boot" INFO "svc-a" None (day 19000) (day 19000).

Definition crash : Log.t :=
  Log.mk 2 (day 19500) "disk, full" ERROR "svc-b" (Some "{}") (day 19500) (day 19500).

Definition sample_db : Database := mkDatabase [boot; crash] 3.

(** Names of attributes that a mapped class gets from [Base] and from
    every class: a sample, for the evaluations; the list is not complete. *)
Definition Base_attributes (name : string) : bool :=
  existsb (fun a => (name =? a)%string)
          ["metadata"; "registry"; "__table__"; "__mapper__"; "__init__";
           "__doc__"; "__module__"; "__dict__"; "__class__"; "__weakref__";
           "__annotations__"; "__abstract__"; "__eq__"; "__hash__";
           "__str__"; "__new__"; "__dir__"; "__sizeof__"
          ].

(** ** Notions that the properties are stated with *)

(** The sum of the counts of a breakdown. *)
Definition sum_aggregation (l : list LogAggregation.t) : Z :=
  fold_right (fun a acc => LogAggregation.count a + acc) 0 l.

(** The sum of the counts of a trend. *)
Definition sum_trend (l : list LogTrend.t) : Z :=
  fold_right (fun a acc => LogTrend.count a + acc) 0 l.

(** The order that [list_logs] asks of the store for a sort order. *)
Definition sort_direction (sort_order : string)
  : (Log.t -> Log.t -> comparison) -> Log.t -> Log.t -> bool :=
  if (Query.lower_string sort_order =? "asc")%string
  then Query.asc else Query.desc.

(** A source filter that is left out or empty puts no condition. *)
Definition no_source (source : option string) : bool :=
  match source with
  | None => true
  | Some s => (s =? EmptyString)%string
  end.

(** The attribute that [setattr] leaves for a field of the payload. *)
Definition field_or {A : Type} (f : field A) (old : option A) : option A :=
  match f with
  | Unset => old
  | Given v => v
  end.

(** A column that holds no null, after an update: as it was when the
    payload leaves the field out, the given value otherwise. *)
Definition applied {A : Type} (f : field A) (old new : A) : Prop :=
  match f with
  | Unset => new = old
  | Given v => v = Some new
  end.

(** The same for a column that may hold a null. *)
Definition applied_nullable {A : Type} (f : field A) (old new : option A)
  : Prop :=
  match f with
  | Unset => new = old
  | Given v => new = v
  end.

(** No entry of the table has the id. *)
Definition absent (db : Database) (log_id : Z) : Prop :=
  forall l, In l (rows db) -> Log.id l <> log_id.

(** The first line of the export. *)
Definition header_line : string :=
  ("ID,Timestamp,Severity,Source,Message" ++ csv.lineterminator)%string.

(** The number of rows of a key. *)
Definition count_key {A K : Type} (eqb : K -> K -> bool) (key : A -> K)
    (k : K) (l : list A) : Z :=
  Query.count (filter (fun r => eqb (key r) k) l).

(** The count that a list of groups holds for a key, 0 when it holds none. *)
Definition count_in {K : Type} (eqb : K -> K -> bool) (groups : list (K * Z))
    (k : K) : Z :=
  match find (fun g => eqb k (fst g)) groups with
  | Some g => snd g
  | None => 0
  end.

(** ** The store over a run of requests *)

(** The store that [init_db] makes where there was none. *)
Definition empty_database : Database := mkDatabase [] 1.

(** The ids of the rows differ, and the sequence is ahead of them all. *)
Definition well_keyed (db : Database) : Prop :=
  NoDup (map Log.id (rows db))
  /\ Forall (fun l => Log.id l < logs_id_seq db) (rows db).

(** No row was updated before it was created, or after the time [now]. *)
Definition stamped (now : datetime) (db : Database) : Prop :=
  Forall (fun l => Log.created_at l <= Log.updated_at l <= now) (rows db).

(** A request that writes. *)
Inductive request : Type :=
  | Create (utcnow : datetime) (log_data : LogCreate.t)
  | Put (log_id : Z) (body : list (string * json))
  | Delete (log_id : Z).

(** The store after a request served at the time [now]. *)
Definition serve (now : datetime) (db : Database) (r : request) : Database :=
  match r with
  | Create utcnow log_data => snd (create_log utcnow now db log_data)
  | Put log_id body => snd (put_log now db log_id body)
  | Delete log_id => snd (delete_log db log_id)
  end.

(** The store after a run of requests, each with the time it is served at. *)
Fixpoint run (db : Database) (requests : list (datetime * request)) : Database :=
  match requests with
  | [] => db
  | (now, r) :: requests' => run (serve now db r) requests'
  end.

(** The times of a run do not go back, from [start] on. *)
Fixpoint clock_advances (start : datetime)
    (requests : list (datetime * request)) : Prop :=
  match requests with
  | [] => True
  | (now, _) :: requests' => start <= now /\ clock_advances now requests'
  end.

(** ** Patterns *)

(** A string without a backslash. *)
Definition no_backslash (s : string) : bool :=
  forallb (fun c => negb (Ascii.eqb c Query.backslash))
          (list_ascii_of_string s).

(** A string without a character that a pattern reads as other than
    itself. *)
Definition pattern_free (s : string) : bool :=
  forallb (fun c => negb (Ascii.eqb c "%" || Ascii.eqb c "_"
                          || Ascii.eqb c Query.backslash))
          (list_ascii_of_string s).

(** A text of ASCII characters. *)
Definition is_ascii (s : string) : bool :=
  forallb (fun c => (nat_of_ascii c <? 128)%nat) (list_ascii_of_string s).

(** [sub] occurs in [s]. *)
Definition contains (s sub : string) : Prop :=
  exists pre post, s = (pre ++ sub ++ post)%string.

(** ** Lines of the export *)

(** A text that begins with a comma or with the end of a line. *)
Definition at_break (s : string) : Prop :=
  exists c s', s = String c s' /\ (c = ","%char \/ c = csv.CR).

(** ** Members of a request body *)

(** A name that the model of the update payload declares. *)
Definition LogUpdate_field (name : string) : bool :=
  (name =? "message")%string || (name =? "severity")%string
  || (name =? "source")%string || (name =? "metadata_json")%string.

(** ** The filters of the list, one by one *)

(** An entry meets the filters that are given: it is not before the start
    date nor after the end date, it has the severity, and its source and
    its message match the patterns made of the source and of the search
    text; a filter that is left out, or a source or search text that is
    empty, asks nothing. *)
Definition meets_filters (start_date end_date : option datetime)
    (severity : option LogSeverity) (source search : option string)
    (l : Log.t) : bool :=
  match start_date with
  | Some d => d <=? Log.timestamp l
  | None => true
  end
  && match end_date with
     | Some d => Log.timestamp l <=? d
     | None => true
     end
  && match severity with
     | Some sv => Severity.eqb (Log.severity l) sv
     | None => true
     end
  && match source with
     | Some s => (s =? EmptyString)%string
                 || Query.ilike (Log.source l) ("%" ++ s ++ "%")%string
     | None => true
     end
  && match search with
     | Some s => (s =? EmptyString)%string
                 || Query.ilike (Log.message l) ("%" ++ s ++ "%")%string
     | None => true
     end.

(** Two entries are in the order asked for: not descending on the column
    when ascending is asked, not ascending otherwise. *)
Definition in_order (sort_order : string) (c : Log.column) (a b : Log.t)
  : Prop :=
  if (Query.lower_string sort_order =? "asc")%string
  then Log.compare_by c a b <> Gt
  else Log.compare_by c a b <> Lt.

(** * Properties *)

(** ** Evaluations *)

Example date_str_epoch : date_str 0 = "1970-01-01".
Proof. reflexivity. Qed.

Example date_str_leap : date_str 19782 = "2024-02-29".
Proof. reflexivity. Qed.

Example isoformat_sample :
  isoformat (19782 * microseconds_per_day + 3723 * 1000000 + 5)
  = "2024-02-29T01:02:03.000005+00:00".
Proof. reflexivity. Qed.

Example ilike_contains : Query.ilike "Auth-Service" "%SERV%" = true.
Proof. reflexivity. Qed.

Example ilike_wildcard : Query.ilike "svc-a" "%s_c%" = true.
Proof. reflexivity. Qed.

Example ilike_escaped : Query.ilike "svc-a" (String Query.backslash "svc-a") = true.
Proof. reflexivity. Qed.

Example ilike_misses : Query.ilike "svc-a" "%svc-b%" = false.
Proof. reflexivity. Qed.

Example order_by_is_stable :
  Query.order_by (Query.desc (fun a b : Z * Z => fst a ?= fst b))
                 [(1, 10); (2, 20); (1, 30); (2, 40)]
  = [(2, 20); (2, 40); (1, 10); (1, 30)].
Proof. reflexivity. Qed.

Example group_count_sample :
  Query.group_count Z.eqb (fun x : Z => x mod 2) [1; 2; 3; 5] = [(1, 3); (0, 1)].
Proof. reflexivity. Qed.

Example write_field_quotes :
  csv.write_field "disk, full"
  = String csv.quotechar
      ("disk, full" ++ String csv.quotechar EmptyString)%string.
Proof. reflexivity. Qed.

Example export_of_one_entry :
  export_rows sample_db None None (Some INFO) None
  = [export_header;
     ["1"; "2022-01-08T00:00:00+00:00"; "INFO"; "svc-a"; "boot"]].
Proof. reflexivity. Qed.

Example update_with_null_message :
  put_log (day 19600) sample_db 1 [("message", JNull)]
  = (Raise HTTP_500_INTERNAL, sample_db).
Proof. reflexivity. Qed.

Example update_with_empty_message :
  put_log (day 19600) sample_db 1 [("message", JString EmptyString)]
  = (Raise HTTP_422_VALIDATION, sample_db).
Proof. reflexivity. Qed.

(** ** Queries *)

Section QueryFacts.

Context {A : Type}.

Lemma where_if_filter (conditions : list (A -> bool)) (l : list A) :
  Query.where_if conditions l = filter (Query.and_ conditions) l.
Proof.
  destruct conditions as [|c cs]; [|reflexivity].
  simpl. induction l as [|x l IH]; simpl; [reflexivity|].
  now rewrite <- IH.
Qed.

Lemma insert_perm (le : A -> A -> bool) (x : A) (l : list A) :
  Permutation (Query.insert le x l) (x :: l).
Proof.
  induction l as [|y l IH]; simpl; [reflexivity|].
  destruct (le x y); [reflexivity|].
  rewrite IH. apply perm_swap.
Qed.

Lemma order_by_perm (le : A -> A -> bool) (l : list A) :
  Permutation (Query.order_by le l) l.
Proof.
  induction l as [|x l IH]; simpl; [constructor|].
  unfold Query.order_by in IH. now rewrite insert_perm, IH.
Qed.

Lemma order_by_length (le : A -> A -> bool) (l : list A) :
  List.length (Query.order_by le l) = List.length l.
Proof. apply Permutation_length, order_by_perm. Qed.

Lemma order_by_nil (le : A -> A -> bool) : Query.order_by le [] = [].
Proof. reflexivity. Qed.


End QueryFacts.

Section GroupFacts.

Context {A K : Type}.
Variable eqb : K -> K -> bool.
Variable key : A -> K.

Lemma sum_counts_bump (k : K) (groups : list (K * Z)) :
  Query.sum_counts (Query.bump eqb k groups) = Query.sum_counts groups + 1.
Proof.
  induction groups as [|[k' n] groups IH]; simpl; [reflexivity|].
  destruct (eqb k k'); simpl; [lia|].
  rewrite IH. lia.
Qed.

Lemma sum_counts_fold (l : list A) (groups : list (K * Z)) :
  Query.sum_counts
    (fold_left (fun groups r => Query.bump eqb (key r) groups) l groups)
  = Query.sum_counts groups + Z.of_nat (List.length l).
Proof.
  revert groups. induction l as [|x l IH]; intros groups; simpl fold_left.
  - simpl. lia.
  - rewrite IH, sum_counts_bump. simpl List.length. lia.
Qed.

(** The counts of the groups add up to the number of rows grouped. *)
Lemma sum_counts_group_count (l : list A) :
  Query.sum_counts (Query.group_count eqb key l) = Query.count l.
Proof. unfold Query.group_count, Query.count. now rewrite sum_counts_fold. Qed.

End GroupFacts.

Lemma sum_counts_perm {K : Type} (g h : list (K * Z)) :
  Permutation g h -> Query.sum_counts g = Query.sum_counts h.
Proof.
  induction 1 as [|x g h _ IH|x y g|g h i _ IH1 _ IH2]; simpl; lia.
Qed.

(** ** Aggregation *)

Lemma sum_aggregation_map {K : Type} (f : K -> string) (groups : list (K * Z)) :
  sum_aggregation
    (map (fun row => LogAggregation.mk (f (fst row)) (snd row)) groups)
  = Query.sum_counts groups.
Proof.
  induction groups as [|g groups IH]; simpl; [reflexivity|].
  now rewrite IH.
Qed.

Lemma sum_trend_map {K : Type} (f : K -> string) (sv : K -> option string)
    (groups : list (K * Z)) :
  sum_trend
    (map (fun row => LogTrend.mk (f (fst row)) (snd row) (sv (fst row))) groups)
  = Query.sum_counts groups.
Proof.
  induction groups as [|g groups IH]; simpl; [reflexivity|].
  now rewrite IH.
Qed.

(** C10: for every store and every filter of the statistics, the counts of
    the severity breakdown add up to the total: both are taken over the
    same selected entries, and an entry has one severity. *)
Theorem severity_breakdown_sums_to_total (now : datetime) (db : Database)
    (start_date end_date : option datetime) (source : option string) :
  exists stats,
    get_log_stats now db start_date end_date source = Return stats
    /\ sum_aggregation (LogStats.severity_breakdown stats)
       = LogStats.total_logs stats.
Proof.
  eexists. split; [reflexivity|].
  cbn [LogStats.severity_breakdown LogStats.total_logs].
  rewrite sum_aggregation_map.
  rewrite (sum_counts_perm _ _ (order_by_perm _ _)).
  apply sum_counts_group_count.
Qed.

(** ** Pagination *)

Section Listing.

Variable inherited : string -> bool.

Lemma list_logs_returns (db : Database) (page page_size : Z)
    (start_date end_date : option datetime) (severity : option LogSeverity)
    (source search : option string) (sort_by sort_order : string)
    (c : Log.column) :
  1 <= page ->
  1 <= page_size <= settings.MAX_PAGE_SIZE ->
  (page - 1) * page_size <= int64_max ->
  getattr_Log inherited sort_by (Column Log.c_timestamp) = Column c ->
  list_logs inherited db page page_size start_date end_date severity source
            search sort_by sort_order
  = Return
      (LogListResponse.mk
         (Query.limit page_size
            (Query.offset ((page - 1) * page_size)
               (Query.order_by (sort_direction sort_order (Log.compare_by c))
                  (list_selected db start_date end_date severity source
                                 search))))
         (Query.count
            (list_selected db start_date end_date severity source search))
         page page_size
         ((Query.count
             (list_selected db start_date end_date severity source search)
           + page_size - 1) / page_size)).
Proof.
  intros Hpage [Hlo Hhi] Hoffset Hcol. unfold list_logs.
  destruct (Z.leb_spec 1 page) as [_|]; [|lia].
  destruct (Z.leb_spec 1 page_size) as [_|]; [|lia].
  destruct (Z.leb_spec page_size settings.MAX_PAGE_SIZE) as [_|]; [|lia].
  cbn [negb andb]. rewrite Hcol. cbv zeta.
  destruct (Z.ltb_spec int64_max ((page - 1) * page_size)) as [|_]; [lia|].
  unfold sort_direction.
  now destruct (Query.lower_string sort_order =? "asc")%string.
Qed.

End Listing.

(** ** Bounds of the page parameters *)

(** C5, as amended: a page size outside 1..100 is rejected as a validation
    error, as is a page below 1; nothing is clamped. *)
Theorem list_logs_rejects_out_of_range (inherited : string -> bool)
    (db : Database) (page page_size : Z)
    (start_date end_date : option datetime) (severity : option LogSeverity)
    (source search : option string) (sort_by sort_order : string) :
  page < 1 \/ page_size < 1 \/ 100 < page_size ->
  list_logs inherited db page page_size start_date end_date severity source
            search sort_by sort_order
  = Raise HTTP_422_VALIDATION.
Proof.
  intros H. unfold list_logs, settings.MAX_PAGE_SIZE.
  destruct (Z.leb_spec 1 page); [|reflexivity].
  destruct (Z.leb_spec 1 page_size); [|reflexivity].
  destruct (Z.leb_spec page_size 100); [lia|reflexivity].
Qed.

Lemma list_logs_rejects_out_of_range_witness :
  (1 < 1 \/ 0 < 1 \/ 100 < 0)
  /\ list_logs Base_attributes sample_db 1 0 None None None None None
               "timestamp" "desc"
     = Raise HTTP_422_VALIDATION.
Proof.
  split.
  - right. left. lia.
  - apply (list_logs_rejects_out_of_range Base_attributes sample_db 1 0).
    right. left. lia.
Defined.

(** C5, as stated, fails: a page size of 101 is not served with the
    nearest bound, the request is refused, while the same request with a
    page size of 100 is served. *)
Lemma page_size_101_is_refused :
  list_logs Base_attributes sample_db 1 101 None None None None None
            "timestamp" "desc"
  = Raise HTTP_422_VALIDATION
  /\ exists r,
       list_logs Base_attributes sample_db 1 100 None None None None None
                 "timestamp" "desc"
       = Return r.
Proof. split; [reflexivity|]. eexists. reflexivity. Qed.

(** ** A start date after the end date *)

Lemma filter_empty_range (start_date end_date : datetime)
    (rest : list condition) (l : list Log.t) :
  end_date < start_date ->
  filter (Query.and_ (timestamp_ge start_date :: timestamp_le end_date :: rest))
         l
  = [].
Proof.
  intros H. induction l as [|x l IH]; [reflexivity|].
  simpl. unfold timestamp_ge at 1, timestamp_le at 1.
  destruct (Z.leb_spec start_date (Log.timestamp x)); simpl; [|exact IH].
  destruct (Z.leb_spec (Log.timestamp x) end_date); simpl; [lia|exact IH].
Qed.

Lemma list_selected_empty_range (db : Database) (start_date end_date : datetime)
    (severity : option LogSeverity) (source search : option string) :
  end_date < start_date ->
  list_selected db (Some start_date) (Some end_date) severity source search
  = [].
Proof. intros H. now apply filter_empty_range. Qed.

Lemma stats_selected_empty_range (db : Database)
    (start_date end_date : datetime) (source : option string) :
  end_date < start_date ->
  stats_selected db (Some start_date) (Some end_date) source = [].
Proof. intros H. now apply filter_empty_range. Qed.

Lemma stats_trend_selected_empty_range (now : datetime) (db : Database)
    (start_date end_date : datetime) (source : option string) :
  end_date < start_date ->
  stats_trend_selected now db (Some start_date) (Some end_date) source = [].
Proof. intros H. now apply filter_empty_range. Qed.

Lemma trend_selected_empty_range (now : datetime) (db : Database)
    (start_date end_date : datetime) (severity : option LogSeverity)
    (source : option string) :
  end_date < start_date ->
  trend_selected now db (Some start_date) (Some end_date) severity source = [].
Proof. intros H. now apply filter_empty_range. Qed.

Lemma export_selected_empty_range (db : Database)
    (start_date end_date : datetime) (severity : option LogSeverity)
    (source : option string) :
  end_date < start_date ->
  export_selected db (Some start_date) (Some end_date) severity source = [].
Proof. intros H. now apply filter_empty_range. Qed.

Lemma writerow_header : csv.writerow export_header = header_line.
Proof. reflexivity. Qed.

(** C8: with a start date after the end date, list, statistics, trend and
    export all answer, and with nothing: no items and a total of 0, a
    total of 0 and empty breakdowns and trend, an empty series, and an
    export of the header line alone. *)
Theorem start_after_end_gives_nothing (inherited : string -> bool)
    (now : datetime) (db : Database) (page page_size : Z)
    (start_date end_date : datetime) (severity : option LogSeverity)
    (source search : option string) (sort_by sort_order : string)
    (c : Log.column) (group_by_severity : bool) :
  end_date < start_date ->
  1 <= page ->
  1 <= page_size <= 100 ->
  (page - 1) * page_size <= int64_max ->
  getattr_Log inherited sort_by (Column Log.c_timestamp) = Column c ->
  list_logs inherited db page page_size (Some start_date) (Some end_date)
            severity source search sort_by sort_order
  = Return (LogListResponse.mk [] 0 page page_size 0)
  /\ (exists stats,
        get_log_stats now db (Some start_date) (Some end_date) source
        = Return stats
        /\ LogStats.total_logs stats = 0
        /\ LogStats.severity_breakdown stats = []
        /\ LogStats.source_breakdown stats = []
        /\ LogStats.trend_data stats = [])
  /\ get_log_trend now db (Some start_date) (Some end_date) severity source
                   group_by_severity
     = Return []
  /\ export_rows db (Some start_date) (Some end_date) severity source
     = [export_header]
  /\ export_logs_csv now db (Some start_date) (Some end_date) severity source
     = Return
         (StreamingResponse.mk header_line "text/csv"
            ("attachment; filename=logs_export_" ++ strftime_compact now
               ++ ".csv")%string).
Proof.
  intros Hrange Hpage Hsize Hoffset Hcol.
  assert (Hrows : export_rows db (Some start_date) (Some end_date) severity
                              source = [export_header]).
  { unfold export_rows. now rewrite export_selected_empty_range. }
  split; [|split; [|split; [|split]]].
  - rewrite (list_logs_returns inherited) with (c := c) by assumption.
    rewrite list_selected_empty_range by assumption.
    unfold Query.limit, Query.offset, Query.count.
    rewrite order_by_nil, skipn_nil, firstn_nil.
    cbn [List.length Z.of_nat]. rewrite Z.div_small by lia. reflexivity.
  - eexists. split; [reflexivity|].
    cbn [LogStats.total_logs LogStats.severity_breakdown
         LogStats.source_breakdown LogStats.trend_data].
    rewrite stats_selected_empty_range, stats_trend_selected_empty_range
      by assumption.
    repeat split.
  - unfold get_log_trend.
    rewrite trend_selected_empty_range by assumption.
    now destruct group_by_severity.
  - exact Hrows.
  - unfold export_logs_csv. rewrite Hrows. reflexivity.
Qed.

Lemma start_after_end_gives_nothing_witness :
  day 19000 < day 19500
  /\ 1 <= 1
  /\ 1 <= 20 <= 100
  /\ (1 - 1) * 20 <= int64_max
  /\ getattr_Log Base_attributes "timestamp" (Column Log.c_timestamp)
     = Column Log.c_timestamp
  /\ list_logs Base_attributes sample_db 1 20 (Some (day 19500))
               (Some (day 19000)) None None None "timestamp" "desc"
     = Return (LogListResponse.mk [] 0 1 20 0).
Proof.
  assert (H1 : day 19000 < day 19500) by (vm_compute; reflexivity).
  assert (H2 : 1 <= 1) by lia.
  assert (H3 : 1 <= 20 <= 100) by lia.
  assert (H5 : (1 - 1) * 20 <= int64_max) by (unfold int64_max; lia).
  assert (H4 : getattr_Log Base_attributes "timestamp" (Column Log.c_timestamp)
               = Column Log.c_timestamp) by reflexivity.
  split; [exact H1|]. split; [exact H2|]. split; [exact H3|].
  split; [exact H5|]. split; [exact H4|].
  exact (proj1 (start_after_end_gives_nothing Base_attributes (day 19600)
                  sample_db 1 20 (day 19500) (day 19000) None None None
                  "timestamp" "desc" Log.c_timestamp false H1 H2 H3 H5 H4)).
Defined.

(** ** Single entries *)

Lemma in_int32_true (n : Z) :
  int32_min <= n <= int32_max -> in_int32 n = true.
Proof.
  intros [Hlo Hhi]. unfold in_int32.
  apply andb_true_intro. split; now apply Z.leb_le.
Qed.

Lemma in_int32_bounds (n : Z) :
  in_int32 n = true -> int32_min <= n <= int32_max.
Proof.
  unfold in_int32. intros H. apply andb_prop in H.
  destruct H as [Hlo Hhi]. split; now apply Z.leb_le.
Qed.

Lemma first_by_id_some (db : Database) (log_id : Z) (log : Log.t) :
  first_by_id db log_id = Some log -> In log (rows db) /\ Log.id log = log_id.
Proof.
  unfold first_by_id. intros H. apply find_some in H.
  destruct H as [Hin Heq]. split; [exact Hin|]. now apply Z.eqb_eq.
Qed.

Lemma first_by_id_none (db : Database) (log_id : Z) :
  first_by_id db log_id = None <-> absent db log_id.
Proof.
  unfold first_by_id, absent. split.
  - intros H l Hin Heq.
    pose proof (find_none _ _ H l Hin) as Hne. cbv beta in Hne.
    apply Z.eqb_neq in Hne. contradiction.
  - intros H. destruct (find _ _) as [l|] eqn:Hfind; [|reflexivity].
    apply find_some in Hfind. destruct Hfind as [Hin Heq].
    apply Z.eqb_eq in Heq. now apply H in Hin.
Qed.


Lemma first_by_id_write_row (db : Database) (log_id : Z) (log log' : Log.t) :
  first_by_id db log_id = Some log ->
  Log.id log' = log_id ->
  first_by_id (write_row db log') log_id = Some log'.
Proof.
  unfold first_by_id, write_row. cbn [rows]. intros Hfirst Hid. subst log_id.
  induction (rows db) as [|x l IH]; [discriminate|].
  simpl in *.
  destruct (Z.eqb_spec (Log.id x) (Log.id log')) as [Heq|Hne].
  - now rewrite Z.eqb_refl.
  - destruct (Z.eqb_spec (Log.id x) (Log.id log')); [contradiction|].
    now apply IH.
Qed.


(** An id beyond the range of the column ends each of the three requests
    in a server error, and the table is as it was. *)
Lemma id_beyond_the_column (now : datetime) (db : Database) (log_id : Z)
    (log_data : LogUpdate.t) :
  in_int32 log_id = false ->
  get_log db log_id = Raise HTTP_500_INTERNAL
  /\ update_log now db log_id log_data = (Raise HTTP_500_INTERNAL, db)
  /\ delete_log db log_id = (Raise HTTP_500_INTERNAL, db).
Proof.
  intros H. unfold get_log, update_log, delete_log. rewrite H.
  repeat split.
Qed.

Example get_beyond_the_column :
  get_log sample_db 2147483648 = Raise HTTP_500_INTERNAL.
Proof. reflexivity. Qed.

Example page_beyond_the_offsets :
  list_logs Base_attributes sample_db 9223372036854775809 1 None None None
            None None "timestamp" "desc"
  = Raise HTTP_500_INTERNAL.
Proof. reflexivity. Qed.



(** *** Partial update *)

Lemma option_eqb_eq {A : Type} (eqb : A -> A -> bool) (a b : option A) :
  (forall x y, eqb x y = true -> x = y) ->
  option_eqb eqb a b = true -> a = b.
Proof.
  intros Heqb. destruct a, b; simpl; try congruence.
  intros H. f_equal. now apply Heqb.
Qed.

Lemma instance_eqb_eq (a b : instance) : instance_eqb a b = true -> a = b.
Proof.
  unfold instance_eqb. destruct a, b. cbn [i_message i_severity i_source
                                             i_metadata_json].
  intros H. repeat (apply andb_prop in H; destruct H as [H ?]).
  f_equal; eapply option_eqb_eq; try eassumption.
  - intros x y. apply String.eqb_eq.
  - intros x y Hxy. now destruct (Severity.eqb_spec x y).
  - intros x y. apply String.eqb_eq.
  - intros x y. apply String.eqb_eq.
Qed.

(** What a flush that succeeds leaves in the row: the attributes as set,
    and of the other columns only [updated_at] touched. *)
Lemma flush_some (now : datetime) (log out : Log.t) (i : instance) :
  flush now log i = Some out ->
  loaded out = i
  /\ Log.id out = Log.id log
  /\ Log.timestamp out = Log.timestamp log
  /\ Log.created_at out = Log.created_at log
  /\ (Log.updated_at out = Log.updated_at log \/ Log.updated_at out = now).
Proof.
  unfold flush. destruct (instance_eqb (loaded log) i) eqn:Hsame.
  - intros H. injection H as <-. apply instance_eqb_eq in Hsame. tauto.
  - destruct i as [[m|] [sv|] [src|] md]; cbn; try discriminate.
    intros H. injection H as <-. cbn. tauto.
Qed.

(** The attributes after the loop over the given fields. *)
Lemma setattr_all (log_data : LogUpdate.t) (i : instance) :
  fold_left setattr (model_dump_exclude_unset log_data) i
  = mkInstance (field_or (LogUpdate.message log_data) (i_message i))
               (field_or (LogUpdate.severity log_data) (i_severity i))
               (field_or (LogUpdate.source log_data) (i_source i))
               (field_or (LogUpdate.metadata_json log_data) (i_metadata_json i)).
Proof.
  destruct log_data as [[|m] [|sv] [|src] [|md]], i; reflexivity.
Qed.

Lemma update_log_found (now : datetime) (db : Database) (log_id : Z)
    (log : Log.t) (log_data : LogUpdate.t) :
  in_int32 log_id = true ->
  first_by_id db log_id = Some log ->
  update_log now db log_id log_data
  = match flush now log
            (fold_left setattr (model_dump_exclude_unset log_data) (loaded log))
    with
    | None => (Raise HTTP_500_INTERNAL, db)
    | Some log' => (Return log', write_row db log')
    end.
Proof. intros Hrange H. unfold update_log. now rewrite Hrange, H. Qed.

Lemma update_log_returns (now : datetime) (db db' : Database) (log_id : Z)
    (log updated : Log.t) (log_data : LogUpdate.t) :
  first_by_id db log_id = Some log ->
  update_log now db log_id log_data = (Return updated, db') ->
  flush now log
        (fold_left setattr (model_dump_exclude_unset log_data) (loaded log))
  = Some updated
  /\ db' = write_row db updated.
Proof.
  intros Hlog. unfold update_log.
  destruct (in_int32 log_id); cbn [negb]; [|discriminate].
  rewrite Hlog.
  destruct (flush _ _ _) as [log'|]; [|discriminate].
  intros H. injection H as <- <-. split; reflexivity.
Qed.

Lemma applied_of_loaded {A : Type} (f : field A) (old new : A) :
  Some new = field_or f (Some old) -> applied f old new.
Proof. destruct f as [|v]; simpl; congruence. Qed.

Lemma applied_nullable_of_loaded {A : Type} (f : field A) (old new : option A) :
  new = field_or f old -> applied_nullable f old new.
Proof. destruct f as [|v]; simpl; congruence. Qed.

(** C7: an update of an entry that is there applies the fields that the
    payload gives and no others: a field left out keeps its value (it is
    not set to null), [updated_at] does not go back, and a payload that
    gives the severity alone changes the severity and leaves message,
    source and metadata as they were. *)
Theorem update_applies_given_fields_only (now : datetime) (db : Database)
    (log_id : Z) (log : Log.t) :
  int32_min <= log_id <= int32_max ->
  first_by_id db log_id = Some log ->
  Log.updated_at log <= now ->
  (forall log_data updated db',
      update_log now db log_id log_data = (Return updated, db') ->
      applied (LogUpdate.message log_data) (Log.message log)
              (Log.message updated)
      /\ applied (LogUpdate.severity log_data) (Log.severity log)
                 (Log.severity updated)
      /\ applied (LogUpdate.source log_data) (Log.source log)
                 (Log.source updated)
      /\ applied_nullable (LogUpdate.metadata_json log_data)
                          (Log.metadata_json log) (Log.metadata_json updated)
      /\ Log.id updated = Log.id log
      /\ Log.timestamp updated = Log.timestamp log
      /\ Log.created_at updated = Log.created_at log
      /\ Log.updated_at log <= Log.updated_at updated
      /\ first_by_id db' log_id = Some updated)
  /\ (forall sv,
      exists updated,
        update_log now db log_id
                   (LogUpdate.mk Unset (Given (Some sv)) Unset Unset)
        = (Return updated, write_row db updated)
        /\ Log.severity updated = sv
        /\ Log.message updated = Log.message log
        /\ Log.source updated = Log.source log
        /\ Log.metadata_json updated = Log.metadata_json log
        /\ Log.updated_at log <= Log.updated_at updated).
Proof.
  intros Hrange Hlog Hnow. apply in_int32_true in Hrange. split.
  - intros log_data updated db' Hupdate.
    destruct (update_log_returns _ _ _ _ _ _ _ Hlog Hupdate) as [Hflush ->].
    apply flush_some in Hflush.
    destruct Hflush as (Hloaded & Hid & Htime & Hcreated & Hupdated).
    rewrite setattr_all in Hloaded. unfold loaded in Hloaded.
    cbn [i_message i_severity i_source i_metadata_json] in Hloaded.
    injection Hloaded as Hm Hsv Hsrc Hmd.
    repeat apply conj; try assumption.
    + now apply applied_of_loaded.
    + now apply applied_of_loaded.
    + now apply applied_of_loaded.
    + now apply applied_nullable_of_loaded.
    + destruct Hupdated as [-> | ->]; lia.
    + apply first_by_id_write_row with (log := log); [exact Hlog|].
      rewrite Hid. now apply first_by_id_some in Hlog.
  - intros sv. rewrite (update_log_found _ _ _ _ _ Hrange Hlog).
    rewrite setattr_all. unfold flush.
    cbn [LogUpdate.message LogUpdate.severity LogUpdate.source
         LogUpdate.metadata_json field_or loaded i_message i_severity
         i_source i_metadata_json].
    destruct (instance_eqb _ _) eqn:Hsame.
    + apply instance_eqb_eq in Hsame. injection Hsame as Hsv.
      exists log. repeat apply conj; try reflexivity; try exact Hsv; lia.
    + eexists. repeat apply conj; try reflexivity. exact Hnow.
Qed.

Lemma update_applies_given_fields_only_witness :
  int32_min <= 1 <= int32_max
  /\ first_by_id sample_db 1 = Some boot
  /\ Log.updated_at boot <= day 19600
  /\ exists updated,
       update_log (day 19600) sample_db 1
                  (LogUpdate.mk Unset (Given (Some CRITICAL)) Unset Unset)
       = (Return updated, write_row sample_db updated)
       /\ Log.severity updated = CRITICAL
       /\ Log.message updated = Log.message boot
       /\ Log.source updated = Log.source boot
       /\ Log.metadata_json updated = Log.metadata_json boot
       /\ Log.updated_at boot <= Log.updated_at updated.
Proof.
  assert (H1 : first_by_id sample_db 1 = Some boot) by reflexivity.
  assert (H2 : Log.updated_at boot <= day 19600)
    by (vm_compute; discriminate).
  assert (H0 : int32_min <= 1 <= int32_max)
    by (unfold int32_min, int32_max; lia).
  split; [exact H0|]. split; [exact H1|]. split; [exact H2|].
  exact (proj2 (update_applies_given_fields_only (day 19600) sample_db 1 boot
                  H0 H1 H2) CRITICAL).
Defined.

(** *** The timestamp under update *)

(** Whatever the body of the request, the entry stored under the id has
    the timestamp it had. *)
Lemma stored_timestamp_after_put (now : datetime) (db : Database) (log_id : Z)
    (log : Log.t) (body : list (string * json)) :
  first_by_id db log_id = Some log ->
  exists stored,
    first_by_id (snd (put_log now db log_id body)) log_id = Some stored
    /\ Log.timestamp stored = Log.timestamp log.
Proof.
  intros Hlog. unfold put_log.
  destruct (LogUpdate.model_validate body) as [log_data|];
    [|now exists log].
  destruct (in_int32 log_id) eqn:Hrange;
    [|unfold update_log; rewrite Hrange; now exists log].
  rewrite (update_log_found _ _ _ _ _ Hrange Hlog).
  destruct (flush _ _ _) as [log'|] eqn:Hflush; [|now exists log].
  apply flush_some in Hflush.
  destruct Hflush as (_ & Hid & Htime & _).
  exists log'. split; [|exact Htime]. cbn [snd].
  apply first_by_id_write_row with (log := log); [exact Hlog|].
  rewrite Hid. now apply first_by_id_some in Hlog.
Qed.

(** C3, as amended: an update leaves the timestamp of the entry as it
    was: the model of the payload has no timestamp field, and a member of
    that name in the body is ignored. *)
Theorem put_log_keeps_timestamp (now : datetime) (db db' : Database)
    (log_id : Z) (body : list (string * json)) (updated : Log.t) :
  put_log now db log_id body = (Return updated, db') ->
  exists log,
    first_by_id db log_id = Some log
    /\ Log.timestamp updated = Log.timestamp log
    /\ first_by_id db' log_id = Some updated.
Proof.
  intros Hput.
  destruct (first_by_id db log_id) as [log|] eqn:Hlog.
  - exists log. split; [reflexivity|].
    unfold put_log in Hput.
    destruct (LogUpdate.model_validate body) as [log_data|]; [|discriminate].
    destruct (update_log_returns _ _ _ _ _ _ _ Hlog Hput) as [Hflush ->].
    apply flush_some in Hflush. destruct Hflush as (_ & Hid & Htime & _).
    split; [exact Htime|].
    apply first_by_id_write_row with (log := log); [exact Hlog|].
    rewrite Hid. now apply first_by_id_some in Hlog.
  - unfold put_log, update_log in Hput. rewrite Hlog in Hput.
    destruct (LogUpdate.model_validate body); [|discriminate].
    destruct (in_int32 log_id); discriminate.
Qed.

Lemma put_log_keeps_timestamp_witness :
  put_log (day 19600) sample_db 1
          [("severity", JString "CRITICAL");
           ("timestamp", JString (isoformat (day 5)))]
  = (Return (Log.mk 1 (day 19000) "boot" CRITICAL "svc-a" None (day 19000)
                    (day 19600)),
     write_row sample_db
       (Log.mk 1 (day 19000) "boot" CRITICAL "svc-a" None (day 19000)
               (day 19600)))
  /\ exists log,
       first_by_id sample_db 1 = Some log
       /\ Log.timestamp
            (Log.mk 1 (day 19000) "boot" CRITICAL "svc-a" None (day 19000)
                    (day 19600))
          = Log.timestamp log
       /\ first_by_id
            (write_row sample_db
               (Log.mk 1 (day 19000) "boot" CRITICAL "svc-a" None (day 19000)
                       (day 19600))) 1
          = Some (Log.mk 1 (day 19000) "boot" CRITICAL "svc-a" None (day 19000)
                         (day 19600)).
Proof.
  assert (H : put_log (day 19600) sample_db 1
                [("severity", JString "CRITICAL");
                 ("timestamp", JString (isoformat (day 5)))]
              = (Return (Log.mk 1 (day 19000) "boot" CRITICAL "svc-a" None
                                (day 19000) (day 19600)),
                 write_row sample_db
                   (Log.mk 1 (day 19000) "boot" CRITICAL "svc-a" None
                           (day 19000) (day 19600))))
    by (vm_compute; reflexivity).
  split; [exact H|].
  exact (put_log_keeps_timestamp _ _ _ _ _ _ H).
Defined.

(** C3, as stated, fails: no request body that gives a timestamp other
    than the one the entry has leaves that timestamp in the stored
    entry. *)
Lemma no_update_sets_the_timestamp :
  ~ exists (now : datetime) (db : Database) (log_id : Z)
           (body : list (string * json)) (t : datetime) (log stored : Log.t),
      first_by_id db log_id = Some log
      /\ json_get "timestamp" body = Some (JString (isoformat t))
      /\ Log.timestamp log <> t
      /\ first_by_id (snd (put_log now db log_id body)) log_id = Some stored
      /\ Log.timestamp stored = t.
Proof.
  intros (now & db & log_id & body & t & log & stored
          & Hlog & _ & Hdiffers & Hstored & Ht).
  destruct (stored_timestamp_after_put now db log_id log body Hlog)
    as (stored' & Hstored' & Hkept).
  congruence.
Qed.

(** ** The order of the list *)

Section OrderFacts.

Context {A : Type}.
Variable le : A -> A -> bool.
Hypothesis le_total : forall a b, le a b = true \/ le b a = true.

Let R (a b : A) : Prop := le a b = true.

Lemma insert_HdRel (x y : A) (l : list A) :
  HdRel R y l -> R y x -> HdRel R y (Query.insert le x l).
Proof.
  intros Hl Hyx. destruct l as [|z l]; simpl; [now constructor|].
  destruct (le x z); constructor; [exact Hyx|].
  now inversion Hl.
Qed.

Lemma insert_sorted (x : A) (l : list A) :
  Sorted R l -> Sorted R (Query.insert le x l).
Proof.
  induction 1 as [|y l Hsorted IH Hhd]; simpl.
  - repeat constructor.
  - destruct (le x y) eqn:Hxy.
    + constructor; [now constructor|]. now constructor.
    + constructor; [exact IH|]. apply insert_HdRel; [exact Hhd|].
      destruct (le_total x y) as [H|H]; [congruence|exact H].
Qed.

Lemma order_by_sorted (l : list A) : Sorted R (Query.order_by le l).
Proof.
  induction l as [|x l IH]; simpl; [constructor|].
  now apply insert_sorted.
Qed.

End OrderFacts.

Lemma Sorted_weaken {A : Type} (R R' : A -> A -> Prop) (l : list A) :
  (forall a b, R a b -> R' a b) -> Sorted R l -> Sorted R' l.
Proof.
  intros HR. induction 1 as [|a l Hsorted IH Hhd]; constructor;
    [exact IH|].
  destruct Hhd; constructor. now apply HR.
Qed.

Lemma compare_by_antisym (c : Log.column) (a b : Log.t) :
  Log.compare_by c b a = CompOpp (Log.compare_by c a b).
Proof.
  destruct c; simpl; try apply Z.compare_antisym;
    try apply String.compare_antisym.
  unfold Log.compare_nullable.
  destruct (Log.metadata_json a), (Log.metadata_json b); try reflexivity.
  apply String.compare_antisym.
Qed.

Lemma asc_total (c : Log.column) (a b : Log.t) :
  Query.asc (Log.compare_by c) a b = true
  \/ Query.asc (Log.compare_by c) b a = true.
Proof.
  unfold Query.asc. rewrite (compare_by_antisym c a b).
  destruct (Log.compare_by c a b); simpl; auto.
Qed.

Lemma desc_total (c : Log.column) (a b : Log.t) :
  Query.desc (Log.compare_by c) a b = true
  \/ Query.desc (Log.compare_by c) b a = true.
Proof.
  unfold Query.desc. rewrite (compare_by_antisym c a b).
  destruct (Log.compare_by c a b); simpl; auto.
Qed.

Lemma getattr_Log_column (inherited : string -> bool) (name : string)
    (default : attribute) (c : Log.column) :
  Log.column_named name = Some c ->
  getattr_Log inherited name default = Column c.
Proof. intros H. unfold getattr_Log. now rewrite H. Qed.

Lemma getattr_Log_default (inherited : string -> bool) (name : string)
    (default : attribute) :
  Log.column_named name = None ->
  name <> "__tablename__" ->
  name <> "__repr__" ->
  inherited name = false ->
  getattr_Log inherited name default = default.
Proof.
  intros Hcol Htable Hrepr Hinherited. unfold getattr_Log.
  rewrite Hcol, Hinherited.
  apply String.eqb_neq in Htable, Hrepr. now rewrite Htable, Hrepr.
Qed.

(** C4, as amended: a [sort_by] that names a column of the entry sorts by
    that column; a [sort_by] that names no attribute of the class at all
    sorts by the timestamp; a [sort_order] that is [asc] whatever the case
    of its letters sorts ascending and any other sorts descending.  The
    items are the page of the selected entries sorted so. *)
Theorem sort_column_and_direction (inherited : string -> bool)
    (db : Database) (page page_size : Z)
    (start_date end_date : option datetime) (severity : option LogSeverity)
    (source search : option string) (sort_by sort_order : string) :
  1 <= page ->
  1 <= page_size <= 100 ->
  (page - 1) * page_size <= int64_max ->
  let selected := list_selected db start_date end_date severity source search in
  let answer (c : Log.column) (le : Log.t -> Log.t -> bool) :=
    exists r,
      list_logs inherited db page page_size start_date end_date severity
                source search sort_by sort_order = Return r
      /\ LogListResponse.items r
         = Query.limit page_size
             (Query.offset ((page - 1) * page_size) (Query.order_by le selected))
      /\ Sorted (fun a b => le a b = true) (Query.order_by le selected)
      /\ Permutation (Query.order_by le selected) selected in
  let direction (c : Log.column) :=
    (Query.lower_string sort_order = "asc" ->
     answer c (Query.asc (Log.compare_by c)))
    /\ (Query.lower_string sort_order <> "asc" ->
        answer c (Query.desc (Log.compare_by c))) in
  (forall c, Log.column_named sort_by = Some c -> direction c)
  /\ (Log.column_named sort_by = None ->
      sort_by <> "__tablename__" ->
      sort_by <> "__repr__" ->
      inherited sort_by = false ->
      direction Log.c_timestamp).
Proof.
  intros Hpage Hsize Hoffset selected answer direction.
  assert (Hdir : forall c,
             getattr_Log inherited sort_by (Column Log.c_timestamp) = Column c ->
             direction c).
  { intros c Hcol. unfold direction, answer. split; intros Horder.
    - eexists. split; [now apply list_logs_returns with (c := c)|].
      cbn [LogListResponse.items]. unfold sort_direction.
      apply String.eqb_eq in Horder. rewrite Horder.
      split; [reflexivity|]. split.
      + apply (order_by_sorted (Query.asc (Log.compare_by c))), asc_total.
      + apply (order_by_perm (Query.asc (Log.compare_by c))).
    - eexists. split; [now apply list_logs_returns with (c := c)|].
      cbn [LogListResponse.items]. unfold sort_direction.
      apply String.eqb_neq in Horder. rewrite Horder.
      split; [reflexivity|]. split.
      + apply (order_by_sorted (Query.desc (Log.compare_by c))), desc_total.
      + apply (order_by_perm (Query.desc (Log.compare_by c))). }
  split.
  - intros c Hc. apply Hdir. now apply getattr_Log_column.
  - intros Hnone Htable Hrepr Hinherited. apply Hdir.
    now apply getattr_Log_default.
Qed.

Lemma sort_column_and_direction_witness :
  1 <= 1
  /\ 1 <= 20 <= 100
  /\ (1 - 1) * 20 <= int64_max
  /\ Log.column_named "severity" = Some Log.c_severity
  /\ Query.lower_string "Asc" = "asc"
  /\ exists r,
       list_logs Base_attributes sample_db 1 20 None None None None None
                 "severity" "Asc" = Return r
       /\ LogListResponse.items r = [boot; crash].
Proof.
  assert (H1 : 1 <= 1) by lia.
  assert (H2 : 1 <= 20 <= 100) by lia.
  assert (H3 : Log.column_named "severity" = Some Log.c_severity)
    by reflexivity.
  assert (H4 : Query.lower_string "Asc" = "asc") by reflexivity.
  assert (H5 : (1 - 1) * 20 <= int64_max) by (unfold int64_max; lia).
  split; [exact H1|]. split; [exact H2|]. split; [exact H5|].
  split; [exact H3|]. split; [exact H4|].
  destruct (proj1 (proj1 (sort_column_and_direction Base_attributes sample_db
                            1 20 None None None None None "severity" "Asc"
                            H1 H2 H5) Log.c_severity H3) H4)
    as (r & Hr & Hitems & _).
  exists r. split; [exact Hr|]. rewrite Hitems. reflexivity.
Defined.

(** C4, as stated, fails: [ASC] is another value than [asc], and the list
    it gives is not in descending order. *)
Lemma upper_case_ASC_sorts_ascending :
  ~ (forall sort_order : string,
        sort_order <> "asc" ->
        exists r,
          list_logs Base_attributes sample_db 1 20 None None None None None
                    "timestamp" sort_order = Return r
          /\ LogListResponse.items r
             = Query.limit 20
                 (Query.offset 0
                    (Query.order_by
                       (Query.desc (Log.compare_by Log.c_timestamp))
                       (rows sample_db)))).
Proof.
  intros H. destruct (H "ASC") as (r & Hr & Hitems); [discriminate|].
  vm_compute in Hr. injection Hr as <-.
  vm_compute in Hitems. discriminate Hitems.
Qed.

(** A [sort_by] that names an attribute of the class that is no column
    does not fall back to the timestamp: the query cannot be ordered. *)
Example sort_by_tablename :
  list_logs Base_attributes sample_db 1 20 None None None None None
            "__tablename__" "desc"
  = Raise HTTP_500_INTERNAL.
Proof. reflexivity. Qed.

Lemma list_selected_meets_filters (db : Database)
    (start_date end_date : option datetime) (severity : option LogSeverity)
    (source search : option string) :
  list_selected db start_date end_date severity source search
  = filter (meets_filters start_date end_date severity source search)
           (rows db).
Proof.
  unfold list_selected. rewrite where_if_filter. apply filter_ext.
  intros l. unfold list_conditions, meets_filters, Query.and_,
    when_given, when_nonempty.
  destruct start_date, end_date, severity,
    source as [src|], search as [txt|];
    try destruct (src =? EmptyString)%string;
    try destruct (txt =? EmptyString)%string;
    cbn [app forallb orb]; rewrite ?andb_true_r, ?andb_true_l;
    try reflexivity;
    unfold timestamp_ge, timestamp_le, severity_eq, source_ilike,
      message_ilike; rewrite ?andb_assoc; reflexivity.
Qed.

Lemma order_by_asc_sorted (c : Log.column) (l : list Log.t) :
  Sorted (fun a b => Log.compare_by c a b <> Gt)
         (Query.order_by (Query.asc (Log.compare_by c)) l).
Proof.
  apply Sorted_weaken
    with (R := fun a b => Query.asc (Log.compare_by c) a b = true).
  - intros a b. unfold Query.asc.
    destruct (Log.compare_by c a b); congruence.
  - apply order_by_sorted, asc_total.
Qed.

Lemma order_by_desc_sorted (c : Log.column) (l : list Log.t) :
  Sorted (fun a b => Log.compare_by c a b <> Lt)
         (Query.order_by (Query.desc (Log.compare_by c)) l).
Proof.
  apply Sorted_weaken
    with (R := fun a b => Query.desc (Log.compare_by c) a b = true).
  - intros a b. unfold Query.desc.
    destruct (Log.compare_by c a b); congruence.
  - apply order_by_sorted, desc_total.
Qed.



(** ** One selection for list, statistics, trend and export *)

Lemma when_nonempty_no_source (source : option string)
    (c : string -> condition) :
  no_source source = true -> when_nonempty source c = [].
Proof.
  destruct source as [s|]; simpl; [|reflexivity].
  now intros ->.
Qed.

Lemma export_conditions_no_source (start_date end_date : option datetime)
    (severity : option LogSeverity) (source : option string) :
  no_source source = true ->
  export_conditions start_date end_date severity source
  = list_conditions start_date end_date severity source None.
Proof.
  intros H. unfold export_conditions, list_conditions.
  rewrite !(when_nonempty_no_source source) by exact H. reflexivity.
Qed.

Lemma stats_conditions_no_source (start_date end_date : option datetime)
    (source : option string) :
  no_source source = true ->
  stats_conditions start_date end_date source
  = list_conditions start_date end_date None source None.
Proof.
  intros H. unfold stats_conditions, list_conditions.
  rewrite !(when_nonempty_no_source source) by exact H. reflexivity.
Qed.

Lemma trend_selected_dated (now : datetime) (db : Database)
    (start_date end_date : option datetime) (severity : option LogSeverity)
    (source : option string) :
  no_source source = true ->
  start_date <> None \/ end_date <> None ->
  trend_selected now db start_date end_date severity source
  = list_selected db start_date end_date severity source None.
Proof.
  intros Hsource Hdated. unfold trend_selected, list_selected.
  rewrite where_if_filter.
  assert (Hconds : trend_conditions now start_date end_date severity source
                   = list_conditions start_date end_date severity source None).
  { unfold trend_conditions, list_conditions.
    rewrite !(when_nonempty_no_source source) by exact Hsource.
    destruct start_date, end_date; try reflexivity.
    destruct Hdated; congruence. }
  rewrite Hconds.
  destruct (list_conditions start_date end_date severity source None)
    as [|c cs] eqn:Hlist; [|reflexivity].
  unfold list_conditions in Hlist.
  destruct start_date, end_date; try discriminate Hlist.
  destruct Hdated; congruence.
Qed.

Lemma concat_cons (x : string) (l : list string) :
  String.concat EmptyString (x :: l)
  = (x ++ String.concat EmptyString l)%string.
Proof.
  destruct l as [|y l]; [|reflexivity].
  simpl. induction x as [|a x IH]; simpl; [reflexivity|].
  now rewrite <- IH.
Qed.

Lemma get_log_trend_sum (now : datetime) (db : Database)
    (start_date end_date : option datetime) (severity : option LogSeverity)
    (source : option string) (group_by_severity : bool) :
  exists series,
    get_log_trend now db start_date end_date severity source group_by_severity
    = Return series
    /\ sum_trend series
       = Query.count
           (trend_selected now db start_date end_date severity source).
Proof.
  unfold get_log_trend. destruct group_by_severity.
  - eexists. split; [reflexivity|].
    rewrite (sum_trend_map (fun k => date_str (fst k))
                           (fun k => Some (Severity.value (snd k)))).
    rewrite (sum_counts_perm _ _ (order_by_perm _ _)).
    apply sum_counts_group_count.
  - eexists. split; [reflexivity|].
    rewrite (sum_trend_map date_str (fun _ => None)).
    rewrite (sum_counts_perm _ _ (order_by_perm _ _)).
    apply sum_counts_group_count.
Qed.

(** C2, as amended: when no source is given (and no search to the list),
    list and export select the same entries for every store, dates and
    severity, so the export has as many data rows as the list has in
    total, after a first row that is the header; the statistics, which
    take no severity, select the same entries as the list without
    severity; the trend selects the same entries as the list when a start
    or an end date is given. *)
Theorem same_selection_without_source (inherited : string -> bool)
    (now : datetime) (db : Database) (page page_size : Z)
    (start_date end_date : option datetime) (severity : option LogSeverity)
    (source : option string) (sort_by sort_order : string) (c : Log.column) :
  no_source source = true ->
  1 <= page ->
  1 <= page_size <= 100 ->
  (page - 1) * page_size <= int64_max ->
  getattr_Log inherited sort_by (Column Log.c_timestamp) = Column c ->
  exists r,
    list_logs inherited db page page_size start_date end_date severity source
              None sort_by sort_order = Return r
    /\ export_selected db start_date end_date severity source
       = list_selected db start_date end_date severity source None
    /\ (exists data,
          export_rows db start_date end_date severity source
          = export_header :: data
          /\ Z.of_nat (List.length data) = LogListResponse.total r)
    /\ (exists response rest,
          export_logs_csv now db start_date end_date severity source
          = Return response
          /\ StreamingResponse.body response = (header_line ++ rest)%string)
    /\ (severity = None ->
        stats_selected db start_date end_date source
        = list_selected db start_date end_date None source None
        /\ exists stats,
             get_log_stats now db start_date end_date source = Return stats
             /\ LogStats.total_logs stats = LogListResponse.total r)
    /\ (start_date <> None \/ end_date <> None ->
        trend_selected now db start_date end_date severity source
        = list_selected db start_date end_date severity source None
        /\ forall group_by_severity,
           exists series,
             get_log_trend now db start_date end_date severity source
                           group_by_severity = Return series
             /\ sum_trend series = LogListResponse.total r).
Proof.
  intros Hsource Hpage Hsize Hoffset Hcol.
  assert (Hexport : export_selected db start_date end_date severity source
                    = list_selected db start_date end_date severity source
                                    None).
  { unfold export_selected, list_selected.
    now rewrite export_conditions_no_source. }
  eexists. split; [now apply list_logs_returns with (c := c)|].
  cbn [LogListResponse.total].
  split; [exact Hexport|]. split; [|split; [|split]].
  - eexists. split; [reflexivity|].
    rewrite length_map, order_by_length, Hexport. reflexivity.
  - eexists. eexists. split; [reflexivity|].
    cbn [StreamingResponse.body]. unfold export_rows.
    rewrite map_cons, concat_cons, writerow_header. reflexivity.
  - intros ->.
    assert (Hstats : stats_selected db start_date end_date source
                     = list_selected db start_date end_date None source None).
    { unfold stats_selected, list_selected.
      now rewrite stats_conditions_no_source. }
    split; [exact Hstats|].
    eexists. split; [reflexivity|].
    cbn [LogStats.total_logs]. now rewrite Hstats.
  - intros Hdated.
    pose proof (trend_selected_dated now db start_date end_date severity
                                     source Hsource Hdated) as Htrend.
    split; [exact Htrend|].
    intros group_by_severity.
    destruct (get_log_trend_sum now db start_date end_date severity source
                                group_by_severity) as (series & Hs & Hsum).
    exists series. split; [exact Hs|]. now rewrite Hsum, Htrend.
Qed.

Lemma same_selection_without_source_witness :
  no_source None = true
  /\ 1 <= 1
  /\ 1 <= 20 <= 100
  /\ (1 - 1) * 20 <= int64_max
  /\ getattr_Log Base_attributes "timestamp" (Column Log.c_timestamp)
     = Column Log.c_timestamp
  /\ exists r,
       list_logs Base_attributes sample_db 1 20 (Some (day 19400)) None
                 (Some ERROR) None None "timestamp" "desc" = Return r
       /\ export_selected sample_db (Some (day 19400)) None (Some ERROR) None
          = list_selected sample_db (Some (day 19400)) None (Some ERROR) None
                          None.
Proof.
  assert (H0 : no_source None = true) by reflexivity.
  assert (H1 : 1 <= 1) by lia.
  assert (H2 : 1 <= 20 <= 100) by lia.
  assert (H3 : getattr_Log Base_attributes "timestamp"
                 (Column Log.c_timestamp) = Column Log.c_timestamp)
    by reflexivity.
  assert (H5 : (1 - 1) * 20 <= int64_max) by (unfold int64_max; lia).
  split; [exact H0|]. split; [exact H1|]. split; [exact H2|].
  split; [exact H5|]. split; [exact H3|].
  destruct (same_selection_without_source Base_attributes (day 19600)
              sample_db 1 20 (Some (day 19400)) None (Some ERROR) None
              "timestamp" "desc" Log.c_timestamp H0 H1 H2 H5 H3)
    as (r & Hr & Hexport & _).
  exists r. split; [exact Hr | exact Hexport].
Defined.

(** C2, as stated, fails: for the source filter [svc] the list selects
    both entries of the sample, by pattern, and the export none, by
    equality: the export has no data row where the list counts two. *)
Lemma list_and_export_differ_on_source :
  exists r,
    list_logs Base_attributes sample_db 1 20 None None None (Some "svc") None
              "timestamp" "desc" = Return r
    /\ LogListResponse.total r = 2
    /\ list_selected sample_db None None None (Some "svc") None = [boot; crash]
    /\ export_selected sample_db None None None (Some "svc") = []
    /\ export_rows sample_db None None None (Some "svc") = [export_header].
Proof. eexists. repeat split. Qed.

(** ** The trend of the statistics *)

(** Without any filter the trend of the statistics counts the entries of
    the last 30 days. *)
Lemma stats_trend_default_window (now : datetime) (db : Database)
    (source : option string) :
  no_source source = true ->
  stats_trend_selected now db None None source
  = filter (fun l => now - timedelta_days 30 <=? Log.timestamp l) (rows db).
Proof.
  intros H. unfold stats_trend_selected, stats_conditions.
  rewrite (when_nonempty_no_source source) by exact H. reflexivity.
Qed.

(** With a source and no date it counts the entries of the source from all
    times. *)
Lemma stats_trend_source_only (now : datetime) (db : Database) (source : string) :
  source <> EmptyString ->
  stats_trend_selected now db None None (Some source)
  = filter (fun l => (Log.source l =? source)%string && true) (rows db).
Proof.
  intros H. unfold stats_trend_selected, stats_conditions. simpl.
  apply String.eqb_neq in H. rewrite H. reflexivity.
Qed.

(** The trend handler keeps to the last 30 days whenever no date is given. *)
Lemma trend_default_window (now : datetime) (db : Database)
    (severity : option LogSeverity) (source : option string) (l : Log.t) :
  In l (trend_selected now db None None severity source) ->
  now - timedelta_days 30 <= Log.timestamp l.
Proof.
  unfold trend_selected, trend_conditions. cbn [when_given app].
  intros H.
  destruct (when_given severity severity_eq ++ when_nonempty source source_eq
            ++ [timestamp_ge (thirty_days_ago now)]) as [|c cs] eqn:Hconds.
  - destruct (when_given severity severity_eq),
             (when_nonempty source source_eq); discriminate Hconds.
  - rewrite <- Hconds in H. apply filter_In in H. destruct H as [_ H].
    unfold Query.and_ in H. rewrite forallb_forall in H.
    apply Z.leb_le, (H (timestamp_ge (thirty_days_ago now))).
    apply in_or_app. right. apply in_or_app. right. now left.
Qed.

(** C1: with a source and no date the statistics do not keep their trend
    to the last 30 days, where the trend handler does: at day 19600 the
    entry of day 19000 is in the trend of the statistics for its source
    and not in the series of the trend handler. *)
Theorem stats_trend_ignores_window_with_source :
  Log.timestamp boot < thirty_days_ago (day 19600)
  /\ (exists stats,
        get_log_stats (day 19600) sample_db None None (Some "svc-a")
        = Return stats
        /\ LogStats.trend_data stats = [LogTrend.mk "2022-01-08" 1 None])
  /\ get_log_trend (day 19600) sample_db None None None (Some "svc-a") false
     = Return [].
Proof.
  split; [reflexivity|]. split; [|reflexivity].
  eexists. split; reflexivity.
Qed.

(** * Further properties of the handlers *)

(** ** Grouping *)

Section GroupExact.

Context {A K : Type}.
Variable eqb : K -> K -> bool.
Variable key : A -> K.
Hypothesis eqb_eq : forall a b, eqb a b = true <-> a = b.

Lemma eqb_reflect (a b : K) : reflect (a = b) (eqb a b).
Proof. apply iff_reflect. symmetry. apply eqb_eq. Qed.

Lemma bump_count_in (k k' : K) (groups : list (K * Z)) :
  count_in eqb (Query.bump eqb k' groups) k
  = count_in eqb groups k + (if eqb k k' then 1 else 0).
Proof.
  unfold count_in.
  induction groups as [|[k'' n] groups IH]; simpl.
  - destruct (eqb k k'); reflexivity.
  - destruct (eqb_reflect k' k'') as [->|Hne]; simpl.
    + destruct (eqb k k''); simpl; lia.
    + destruct (eqb_reflect k k'') as [->|Hne']; simpl.
      * destruct (eqb_reflect k'' k'); [congruence|lia].
      * exact IH.
Qed.

Lemma bump_keys (k k' : K) (groups : list (K * Z)) :
  In k (map fst (Query.bump eqb k' groups))
  <-> k = k' \/ In k (map fst groups).
Proof.
  induction groups as [|[k'' n] groups IH]; simpl.
  - intuition congruence.
  - destruct (eqb_reflect k' k'') as [->|Hne]; simpl.
    + intuition congruence.
    + rewrite IH. intuition congruence.
Qed.

Lemma bump_NoDup (k : K) (groups : list (K * Z)) :
  NoDup (map fst groups) -> NoDup (map fst (Query.bump eqb k groups)).
Proof.
  induction groups as [|[k' n] groups IH]; simpl; intros H.
  - repeat constructor. intros [].
  - destruct (eqb_reflect k k') as [->|Hne]; simpl; [exact H|].
    inversion H as [|? ? Hnotin Hrest]; subst.
    constructor; [|now apply IH].
    rewrite bump_keys. intuition congruence.
Qed.

Lemma bump_positive (k : K) (groups : list (K * Z)) :
  Forall (fun g => 0 < snd g) groups ->
  Forall (fun g => 0 < snd g) (Query.bump eqb k groups).
Proof.
  induction 1 as [|[k' n] groups Hn Hrest IH]; simpl.
  - repeat constructor.
  - destruct (eqb k k'); constructor; simpl in *; try assumption. lia.
Qed.

Lemma fold_bump_invariant (l : list A) (groups : list (K * Z)) :
  NoDup (map fst groups) ->
  Forall (fun g => 0 < snd g) groups ->
  let result :=
    fold_left (fun groups r => Query.bump eqb (key r) groups) l groups in
  NoDup (map fst result)
  /\ Forall (fun g => 0 < snd g) result
  /\ forall k, count_in eqb result k
               = count_in eqb groups k + count_key eqb key k l.
Proof.
  revert groups. induction l as [|r l IH]; intros groups Hnodup Hpos; simpl.
  - repeat split; try assumption. intros k.
    unfold count_key, Query.count. simpl. lia.
  - destruct (IH (Query.bump eqb (key r) groups)) as (H1 & H2 & H3).
    + now apply bump_NoDup.
    + now apply bump_positive.
    + repeat split; try assumption.
      intros k. rewrite H3, bump_count_in.
      unfold count_key, Query.count. simpl.
      destruct (eqb_reflect k (key r)) as [->|Hne].
      * destruct (eqb_reflect (key r) (key r)); [|congruence].
        simpl List.length. lia.
      * destruct (eqb_reflect (key r) k); [congruence|]. lia.
Qed.

Lemma count_in_of_member (groups : list (K * Z)) (k : K) (n : Z) :
  NoDup (map fst groups) -> In (k, n) groups -> count_in eqb groups k = n.
Proof.
  unfold count_in.
  induction groups as [|[k' n'] groups IH]; simpl; intros Hnodup Hin;
    [contradiction|].
  inversion Hnodup as [|? ? Hnotin Hrest]; subst.
  destruct Hin as [Heq|Hin].
  - injection Heq as -> ->.
    destruct (eqb_reflect k k); [reflexivity|congruence].
  - destruct (eqb_reflect k k') as [->|Hne]; [|now apply IH].
    exfalso. apply Hnotin. now apply (in_map fst) in Hin.
Qed.

Lemma member_of_count_in (groups : list (K * Z)) (k : K) :
  count_in eqb groups k <> 0 -> In (k, count_in eqb groups k) groups.
Proof.
  unfold count_in. intros H.
  destruct (find _ _) as [[k' n]|] eqn:Hfind; [|contradiction].
  apply find_some in Hfind. destruct Hfind as [Hin Heq].
  simpl in *. apply eqb_eq in Heq. now subst.
Qed.

(** The groups of [group_count]: one for each key that some row has, with
    the number of the rows of the key. *)
Lemma group_count_exact (l : list A) :
  NoDup (map fst (Query.group_count eqb key l))
  /\ forall k n,
       In (k, n) (Query.group_count eqb key l)
       <-> n = count_key eqb key k l /\ 0 < n.
Proof.
  unfold Query.group_count.
  destruct (fold_bump_invariant l []) as (Hnodup & Hpos & Hcount);
    [constructor | constructor |].
  cbv zeta in *. split; [exact Hnodup|].
  intros k n. split.
  - intros Hin. split.
    + rewrite <- (count_in_of_member _ _ _ Hnodup Hin), Hcount.
      reflexivity.
    + rewrite Forall_forall in Hpos. exact (Hpos _ Hin).
  - intros [-> Hn].
    specialize (Hcount k). cbn in Hcount.
    rewrite <- Hcount. apply member_of_count_in. lia.
Qed.

End GroupExact.

(** ** What the handlers select *)

Lemma and_when_given {A : Type} (p : option A) (c : A -> condition)
    (rest : list condition) (l : Log.t) :
  Query.and_ (when_given p c ++ rest) l = true
  <-> (forall v, p = Some v -> c v l = true) /\ Query.and_ rest l = true.
Proof.
  destruct p as [v|]; simpl.
  - rewrite andb_true_iff. split.
    + intros [H1 H2]. split; [|exact H2]. now intros ? [= <-].
    + intros [H1 H2]. split; [now apply H1|exact H2].
  - split; [|tauto]. intros H. split; [discriminate|exact H].
Qed.

Lemma and_when_nonempty (p : option string) (c : string -> condition)
    (rest : list condition) (l : Log.t) :
  Query.and_ (when_nonempty p c ++ rest) l = true
  <-> (forall s, p = Some s -> s <> EmptyString -> c s l = true)
      /\ Query.and_ rest l = true.
Proof.
  destruct p as [s|]; simpl.
  - destruct (String.eqb_spec s EmptyString) as [->|Hne]; simpl.
    + split; [|tauto]. intros H. split; [|exact H].
      intros ? [= <-] Hne. congruence.
    + rewrite andb_true_iff. split.
      * intros [H1 H2]. split; [|exact H2]. now intros ? [= <-] _.
      * intros [H1 H2]. split; [now apply H1|exact H2].
  - split; [|tauto]. intros H. split; [discriminate|exact H].
Qed.

Lemma and_nil (l : Log.t) : Query.and_ (@nil condition) l = true.
Proof. reflexivity. Qed.

(** The entries that the list selects are the rows that meet every filter
    that is given: the dates as bounds of the timestamp, both included,
    the severity by equality, source and search as patterns. *)
Theorem list_selected_spec (db : Database)
    (start_date end_date : option datetime) (severity : option LogSeverity)
    (source search : option string) (l : Log.t) :
  In l (list_selected db start_date end_date severity source search)
  <-> In l (rows db)
      /\ (forall d, start_date = Some d -> d <= Log.timestamp l)
      /\ (forall d, end_date = Some d -> Log.timestamp l <= d)
      /\ (forall sv, severity = Some sv -> Log.severity l = sv)
      /\ (forall s, source = Some s -> s <> EmptyString ->
            Query.ilike (Log.source l) ("%" ++ s ++ "%")%string = true)
      /\ (forall s, search = Some s -> s <> EmptyString ->
            Query.ilike (Log.message l) ("%" ++ s ++ "%")%string = true).
Proof.
  unfold list_selected, list_conditions.
  rewrite where_if_filter, filter_In.
  rewrite <- (app_nil_r (when_nonempty search message_ilike)).
  rewrite !and_when_given, !and_when_nonempty.
  unfold timestamp_ge, timestamp_le, severity_eq, source_ilike, message_ilike.
  setoid_rewrite Z.leb_le.
  assert (Hsev : forall sv, Severity.eqb (Log.severity l) sv = true
                            <-> Log.severity l = sv).
  { intros sv. now destruct (Severity.eqb_spec (Log.severity l) sv). }
  setoid_rewrite Hsev.
  pose proof (and_nil l). tauto.
Qed.

(** The entries that the statistics count: the rows within the dates, of
    the source by equality. *)
Theorem stats_selected_spec (db : Database)
    (start_date end_date : option datetime) (source : option string)
    (l : Log.t) :
  In l (stats_selected db start_date end_date source)
  <-> In l (rows db)
      /\ (forall d, start_date = Some d -> d <= Log.timestamp l)
      /\ (forall d, end_date = Some d -> Log.timestamp l <= d)
      /\ (forall s, source = Some s -> s <> EmptyString -> Log.source l = s).
Proof.
  unfold stats_selected, stats_conditions.
  rewrite where_if_filter, filter_In.
  rewrite !and_when_given.
  rewrite <- (app_nil_r (when_nonempty source source_eq)).
  rewrite and_when_nonempty.
  unfold timestamp_ge, timestamp_le, source_eq.
  setoid_rewrite Z.leb_le. setoid_rewrite String.eqb_eq.
  pose proof (and_nil l). tauto.
Qed.

(** The entries that the trend counts: the rows that meet the filters
    given, the source by equality, and, when neither date is given, the
    rows of the last 30 days only. *)
Theorem trend_selected_spec (now : datetime) (db : Database)
    (start_date end_date : option datetime) (severity : option LogSeverity)
    (source : option string) (l : Log.t) :
  In l (trend_selected now db start_date end_date severity source)
  <-> In l (rows db)
      /\ (forall d, start_date = Some d -> d <= Log.timestamp l)
      /\ (forall d, end_date = Some d -> Log.timestamp l <= d)
      /\ (forall sv, severity = Some sv -> Log.severity l = sv)
      /\ (forall s, source = Some s -> s <> EmptyString -> Log.source l = s)
      /\ (start_date = None -> end_date = None ->
          now - timedelta_days 30 <= Log.timestamp l).
Proof.
  unfold trend_selected.
  assert (Hfilter :
            filter (match trend_conditions now start_date end_date severity
                            source with
                    | _ :: _ =>
                        Query.and_ (trend_conditions now start_date end_date
                                                     severity source)
                    | [] => fun _ => true
                    end) (rows db)
            = filter (Query.and_ (trend_conditions now start_date end_date
                                                   severity source))
                     (rows db)).
  { now destruct (trend_conditions now start_date end_date severity source). }
  cbv zeta. rewrite Hfilter, filter_In. unfold trend_conditions.
  rewrite !and_when_given, and_when_nonempty.
  unfold timestamp_ge, timestamp_le, severity_eq, source_eq.
  setoid_rewrite Z.leb_le. setoid_rewrite String.eqb_eq.
  assert (Hsev : forall sv, Severity.eqb (Log.severity l) sv = true
                            <-> Log.severity l = sv).
  { intros sv. now destruct (Severity.eqb_spec (Log.severity l) sv). }
  setoid_rewrite Hsev.
  assert (Hwindow :
            Query.and_ (match start_date, end_date with
                        | None, None => [timestamp_ge (thirty_days_ago now)]
                        | _, _ => []
                        end) l = true
            <-> (start_date = None -> end_date = None ->
                 now - timedelta_days 30 <= Log.timestamp l)).
  { destruct start_date, end_date; simpl;
      try (split; [intros; congruence | reflexivity]).
    unfold timestamp_ge, thirty_days_ago. rewrite andb_true_r, Z.leb_le.
    tauto. }
  rewrite Hwindow. tauto.
Qed.

(** The entries that the export writes: the rows that meet the filters
    given, the source by equality. *)
Theorem export_selected_spec (db : Database)
    (start_date end_date : option datetime) (severity : option LogSeverity)
    (source : option string) (l : Log.t) :
  In l (export_selected db start_date end_date severity source)
  <-> In l (rows db)
      /\ (forall d, start_date = Some d -> d <= Log.timestamp l)
      /\ (forall d, end_date = Some d -> Log.timestamp l <= d)
      /\ (forall sv, severity = Some sv -> Log.severity l = sv)
      /\ (forall s, source = Some s -> s <> EmptyString -> Log.source l = s).
Proof.
  unfold export_selected, export_conditions.
  rewrite where_if_filter, filter_In.
  rewrite !and_when_given.
  rewrite <- (app_nil_r (when_nonempty source source_eq)).
  rewrite and_when_nonempty.
  unfold timestamp_ge, timestamp_le, severity_eq, source_eq.
  setoid_rewrite Z.leb_le. setoid_rewrite String.eqb_eq.
  assert (Hsev : forall sv, Severity.eqb (Log.severity l) sv = true
                            <-> Log.severity l = sv).
  { intros sv. now destruct (Severity.eqb_spec (Log.severity l) sv). }
  setoid_rewrite Hsev.
  pose proof (and_nil l). tauto.
Qed.

(** ** Breakdowns and series *)

Lemma Sorted_map {A B : Type} (f : A -> B) (R : B -> B -> Prop) (l : list A) :
  Sorted (fun a b => R (f a) (f b)) l -> Sorted R (map f l).
Proof.
  induction 1 as [|a l Hsorted IH Hhd]; simpl; constructor; [exact IH|].
  destruct Hhd; simpl; now constructor.
Qed.

Lemma order_by_desc_count {K : Type} (groups : list (K * Z)) :
  Sorted (fun a b => snd b <= snd a)
         (Query.order_by (Query.desc by_count) groups).
Proof.
  apply Sorted_weaken
    with (R := fun a b => Query.desc (@by_count K) a b = true).
  - intros a b. unfold Query.desc, by_count.
    destruct (snd a ?= snd b) eqn:Hcmp; try discriminate; intros _.
    + apply Z.compare_eq in Hcmp. lia.
    + rewrite Z.compare_gt_iff in Hcmp. lia.
  - apply order_by_sorted. intros a b. unfold Query.desc, by_count.
    rewrite (Z.compare_antisym (snd a) (snd b)).
    destruct (snd a ?= snd b); simpl; auto.
Qed.

Lemma order_by_asc_date {B : Type} (proj : B -> Z) (groups : list B) :
  Sorted (fun a b => proj a <= proj b)
         (Query.order_by (Query.asc (fun a b => proj a ?= proj b)) groups).
Proof.
  apply Sorted_weaken
    with (R := fun a b =>
                 Query.asc (fun a b : B => proj a ?= proj b) a b = true).
  - intros a b. unfold Query.asc.
    destruct (proj a ?= proj b) eqn:Hcmp; try discriminate; intros _.
    + apply Z.compare_eq in Hcmp. lia.
    + rewrite Z.compare_lt_iff in Hcmp. lia.
  - apply order_by_sorted. intros a b. unfold Query.asc.
    rewrite (Z.compare_antisym (proj a) (proj b)).
    destruct (proj a ?= proj b); simpl; auto.
Qed.

Lemma order_by_In {A : Type} (le : A -> A -> bool) (l : list A) (x : A) :
  In x (Query.order_by le l) <-> In x l.
Proof.
  split; apply Permutation_in;
    [apply order_by_perm | apply Permutation_sym, order_by_perm].
Qed.

Lemma order_by_NoDup_keys {K : Type} (le : K * Z -> K * Z -> bool)
    (groups : list (K * Z)) :
  NoDup (map fst groups) -> NoDup (map fst (Query.order_by le groups)).
Proof.
  apply Permutation_NoDup, Permutation_map, Permutation_sym, order_by_perm.
Qed.

Lemma severity_eqb_eq (a b : LogSeverity) : Severity.eqb a b = true <-> a = b.
Proof. now destruct (Severity.eqb_spec a b). Qed.

Lemma severity_value_inj (a b : LogSeverity) :
  Severity.value a = Severity.value b -> a = b.
Proof. destruct a, b; simpl; congruence. Qed.

Lemma NoDup_map_inj {A B : Type} (f : A -> B) (l : list A) :
  (forall a b, f a = f b -> a = b) -> NoDup l -> NoDup (map f l).
Proof.
  intros Hinj. induction 1 as [|a l Hnotin Hnodup IH]; simpl; constructor;
    [|exact IH].
  rewrite in_map_iff. intros (b & Hb & Hin). apply Hinj in Hb. now subst.
Qed.

Lemma count_key_positive {A K : Type} (eqb : K -> K -> bool) (key : A -> K)
    (l : list A) (r : A) :
  (forall a b, eqb a b = true <-> a = b) ->
  In r l -> 0 < count_key eqb key (key r) l.
Proof.
  intros Heqb Hin. unfold count_key, Query.count.
  assert (Hin' : In r (filter (fun r' => eqb (key r') (key r)) l)).
  { apply filter_In. split; [exact Hin|]. now apply Heqb. }
  destruct (filter _ l); [contradiction|]. simpl List.length. lia.
Qed.

(** The severity breakdown of the statistics has one row for each
    severity that a selected entry has, with the number of the selected
    entries of that severity, and none with a count of 0; the rows come by
    count, the largest first. *)
Theorem severity_breakdown_exact (now : datetime) (db : Database)
    (start_date end_date : option datetime) (source : option string) :
  exists stats,
    get_log_stats now db start_date end_date source = Return stats
    /\ NoDup (map LogAggregation.label (LogStats.severity_breakdown stats))
    /\ Sorted (fun a b => LogAggregation.count b <= LogAggregation.count a)
              (LogStats.severity_breakdown stats)
    /\ (forall a, In a (LogStats.severity_breakdown stats) ->
          exists sv, LogAggregation.label a = Severity.value sv)
    /\ forall sv n,
         In (LogAggregation.mk (Severity.value sv) n)
            (LogStats.severity_breakdown stats)
         <-> n = count_key Severity.eqb Log.severity sv
                   (stats_selected db start_date end_date source)
             /\ 0 < n.
Proof.
  eexists. split; [reflexivity|]. cbn [LogStats.severity_breakdown].
  set (selected := stats_selected db start_date end_date source).
  destruct (group_count_exact Severity.eqb Log.severity severity_eqb_eq
                              selected) as [Hnodup Hexact].
  set (groups := Query.group_count Severity.eqb Log.severity selected) in *.
  split; [|split; [|split]].
  - rewrite map_map. cbn [LogAggregation.label].
    rewrite <- (map_map fst Severity.value).
    apply NoDup_map_inj; [exact severity_value_inj|].
    now apply order_by_NoDup_keys.
  - apply Sorted_map. cbn [LogAggregation.count]. apply order_by_desc_count.
  - intros a Ha. apply in_map_iff in Ha. destruct Ha as ([sv n] & <- & _).
    now exists sv.
  - intros sv n. rewrite <- Hexact, in_map_iff. split.
    + intros ([sv' n'] & Heq & Hin). apply order_by_In in Hin.
      injection Heq as Hsv ->. apply severity_value_inj in Hsv. now subst.
    + intros Hin. exists (sv, n). split; [reflexivity|].
      now apply order_by_In.
Qed.

Lemma Sorted_desc_strong {A : Type} (f : A -> Z) (l : list A) :
  Sorted (fun a b => f b <= f a) l ->
  StronglySorted (fun a b => f b <= f a) l.
Proof. apply Sorted_StronglySorted. intros a b c Hab Hbc. lia. Qed.

Lemma StronglySorted_app {A : Type} (R : A -> A -> Prop) (l1 l2 : list A)
    (a b : A) :
  StronglySorted R (l1 ++ l2) -> In a l1 -> In b l2 -> R a b.
Proof.
  induction l1 as [|x l1 IH]; simpl; intros Hsorted Ha Hb; [contradiction|].
  inversion Hsorted as [|? ? Hrest Hall]; subst.
  destruct Ha as [->|Ha]; [|now apply IH].
  rewrite Forall_forall in Hall. apply Hall, in_or_app. now right.
Qed.

Lemma StronglySorted_app_l {A : Type} (R : A -> A -> Prop) (l1 l2 : list A) :
  StronglySorted R (l1 ++ l2) -> StronglySorted R l1.
Proof.
  induction l1 as [|x l1 IH]; simpl; intros Hsorted; [constructor|].
  inversion Hsorted as [|? ? Hrest Hall]; subst.
  constructor; [now apply IH|].
  apply Forall_forall. intros y Hy.
  rewrite Forall_forall in Hall. apply Hall, in_or_app. now left.
Qed.

(** The source breakdown of the statistics has at most 10 rows, each with
    the number of the selected entries of its source, the largest count
    first; no source that is left out has more entries than one that is
    in, and a source is left out only when there are 10 rows. *)
Theorem source_breakdown_top (now : datetime) (db : Database)
    (start_date end_date : option datetime) (source : option string) :
  exists stats,
    get_log_stats now db start_date end_date source = Return stats
    /\ let selected := stats_selected db start_date end_date source in
       let breakdown := LogStats.source_breakdown stats in
       (List.length breakdown <= 10)%nat
       /\ NoDup (map LogAggregation.label breakdown)
       /\ Sorted (fun a b => LogAggregation.count b <= LogAggregation.count a)
                 breakdown
       /\ (forall a, In a breakdown ->
             LogAggregation.count a
             = count_key String.eqb Log.source (LogAggregation.label a)
                         selected
             /\ 0 < LogAggregation.count a)
       /\ (forall l, In l selected ->
             ~ In (Log.source l) (map LogAggregation.label breakdown) ->
             List.length breakdown = 10%nat
             /\ forall a, In a breakdown ->
                  count_key String.eqb Log.source (Log.source l) selected
                  <= LogAggregation.count a).
Proof.
  eexists. split; [reflexivity|]. cbn [LogStats.source_breakdown]. cbv zeta.
  set (selected := stats_selected db start_date end_date source).
  destruct (group_count_exact String.eqb Log.source String.eqb_eq selected)
    as [Hnodup Hexact].
  set (groups := Query.group_count String.eqb Log.source selected) in *.
  set (ordered := Query.order_by (Query.desc by_count) groups).
  assert (Hsorted : Sorted (fun a b : string * Z => snd b <= snd a) ordered)
    by apply order_by_desc_count.
  assert (Hnodup' : NoDup (map fst ordered)) by now apply order_by_NoDup_keys.
  assert (Hsplit : ordered = firstn 10 ordered ++ skipn 10 ordered)
    by (symmetry; apply firstn_skipn).
  unfold Query.limit. change (Z.to_nat 10) with 10%nat.
  split; [|split; [|split; [|split]]].
  - rewrite length_map. apply firstn_le_length.
  - rewrite map_map. cbn [LogAggregation.label].
    rewrite Hsplit, map_app in Hnodup'. now apply NoDup_app_remove_r in Hnodup'.
  - apply Sorted_map. cbn [LogAggregation.count].
    apply Sorted_desc_strong in Hsorted. rewrite Hsplit in Hsorted.
    apply StronglySorted_Sorted. exact (StronglySorted_app_l _ _ _ Hsorted).
  - intros a Ha. apply in_map_iff in Ha. destruct Ha as ([s n] & <- & Hin).
    cbn [LogAggregation.count LogAggregation.label fst snd].
    apply Hexact. apply (order_by_In (Query.desc by_count)).
    fold ordered. rewrite Hsplit. apply in_or_app. now left.
  - intros l Hl Hout.
    pose proof (count_key_positive String.eqb Log.source selected l
                                   String.eqb_eq Hl) as Hpos.
    assert (Hin : In (Log.source l,
                      count_key String.eqb Log.source (Log.source l) selected)
                     ordered).
    { apply order_by_In, Hexact. split; [reflexivity|exact Hpos]. }
    rewrite Hsplit in Hin. apply in_app_or in Hin. destruct Hin as [Hin|Hin].
    { exfalso. apply Hout. rewrite map_map. cbn [LogAggregation.label].
      now apply (in_map fst) in Hin. }
    split.
    + rewrite length_map, length_firstn.
      destruct (Nat.le_gt_cases (List.length ordered) 10) as [Hle|Hgt];
        [|lia].
      rewrite skipn_all2 in Hin by exact Hle. contradiction.
    + intros a Ha. apply in_map_iff in Ha. destruct Ha as ([s n] & <- & Hs).
      cbn [LogAggregation.count snd].
      apply Sorted_desc_strong in Hsorted. rewrite Hsplit in Hsorted.
      exact (StronglySorted_app _ _ _ _ _ Hsorted Hs Hin).
Qed.

Lemma Sorted_strict {A : Type} (f : A -> Z) (l : list A) :
  Sorted (fun a b => f a <= f b) l ->
  NoDup (map f l) ->
  Sorted (fun a b => f a < f b) l.
Proof.
  induction 1 as [|a l Hsorted IH Hhd]; simpl; intros Hnodup;
    [constructor|].
  inversion Hnodup as [|? ? Hnotin Hrest]; subst.
  constructor; [now apply IH|].
  destruct Hhd as [|b l' Hab]; constructor.
  assert (f a <> f b) by (intros Heq; apply Hnotin; simpl; now left).
  lia.
Qed.

Lemma day_severity_eqb_eq (a b : date * LogSeverity) :
  day_severity_eqb a b = true <-> a = b.
Proof.
  destruct a as [d sv], b as [d' sv']. unfold day_severity_eqb. simpl.
  rewrite andb_true_iff, Z.eqb_eq, severity_eqb_eq.
  split; [intros [-> ->]; reflexivity | intros [= -> ->]; now split].
Qed.

(** The series of the trend handler has one row for each day on which a
    selected entry falls, with the number of the selected entries of that
    day, and no row for a day without one; the days ascend strictly. *)
Theorem trend_series_exact (now : datetime) (db : Database)
    (start_date end_date : option datetime) (severity : option LogSeverity)
    (source : option string) :
  exists groups : list (date * Z),
    get_log_trend now db start_date end_date severity source false
    = Return (map (fun row => LogTrend.mk (date_str (fst row)) (snd row) None)
                  groups)
    /\ Sorted (fun a b => fst a < fst b) groups
    /\ forall d n,
         In (d, n) groups
         <-> n = count_key Z.eqb (fun l => cast_Date (Log.timestamp l)) d
                   (trend_selected now db start_date end_date severity source)
             /\ 0 < n.
Proof.
  eexists. split; [reflexivity|].
  set (selected := trend_selected now db start_date end_date severity source).
  destruct (group_count_exact Z.eqb (fun l => cast_Date (Log.timestamp l))
                              Z.eqb_eq selected) as [Hnodup Hexact].
  split.
  - apply Sorted_strict; [apply (order_by_asc_date fst)|].
    now apply order_by_NoDup_keys.
  - intros d n. rewrite order_by_In. apply Hexact.
Qed.

(** Grouped by severity, the series has one row for each pair of a day
    and a severity that a selected entry has, with the number of the
    selected entries of the pair, and none with a count of 0; the rows
    come by day. *)
Theorem trend_series_by_severity_exact (now : datetime) (db : Database)
    (start_date end_date : option datetime) (severity : option LogSeverity)
    (source : option string) :
  exists groups : list (date * LogSeverity * Z),
    get_log_trend now db start_date end_date severity source true
    = Return (map (fun row =>
                     LogTrend.mk (date_str (fst (fst row))) (snd row)
                                 (Some (Severity.value (snd (fst row)))))
                  groups)
    /\ Sorted (fun a b => fst (fst a) <= fst (fst b)) groups
    /\ NoDup (map fst groups)
    /\ forall d sv n,
         In (d, sv, n) groups
         <-> n = count_key day_severity_eqb
                   (fun l => (cast_Date (Log.timestamp l), Log.severity l))
                   (d, sv)
                   (trend_selected now db start_date end_date severity source)
             /\ 0 < n.
Proof.
  eexists. split; [reflexivity|].
  set (selected := trend_selected now db start_date end_date severity source).
  destruct (group_count_exact day_severity_eqb
              (fun l => (cast_Date (Log.timestamp l), Log.severity l))
              day_severity_eqb_eq selected) as [Hnodup Hexact].
  split; [|split].
  - apply (order_by_asc_date (fun g : date * LogSeverity * Z => fst (fst g))).
  - now apply order_by_NoDup_keys.
  - intros d sv n. rewrite order_by_In. apply Hexact.
Qed.

(** With a start or an end date the trend of the statistics counts the
    entries that the total counts: one row for each of their days, the
    days ascending strictly, and the counts add up to the total. *)
Theorem stats_trend_with_dates (now : datetime) (db : Database)
    (start_date end_date : option datetime) (source : option string) :
  start_date <> None \/ end_date <> None ->
  exists stats (groups : list (date * Z)),
    get_log_stats now db start_date end_date source = Return stats
    /\ LogStats.trend_data stats
       = map (fun row => LogTrend.mk (date_str (fst row)) (snd row) None)
             groups
    /\ Sorted (fun a b => fst a < fst b) groups
    /\ (forall d n,
          In (d, n) groups
          <-> n = count_key Z.eqb (fun l => cast_Date (Log.timestamp l)) d
                    (stats_selected db start_date end_date source)
              /\ 0 < n)
    /\ sum_trend (LogStats.trend_data stats) = LogStats.total_logs stats.
Proof.
  intros Hdated.
  assert (Hsame : stats_trend_selected now db start_date end_date source
                  = stats_selected db start_date end_date source).
  { unfold stats_trend_selected, stats_selected. rewrite where_if_filter.
    destruct (stats_conditions start_date end_date source) eqn:Hconds;
      [|reflexivity].
    unfold stats_conditions in Hconds.
    destruct start_date, end_date; try discriminate Hconds.
    destruct Hdated; congruence. }
  eexists. eexists. split; [reflexivity|].
  cbn [LogStats.trend_data LogStats.total_logs]. rewrite Hsame.
  set (selected := stats_selected db start_date end_date source).
  destruct (group_count_exact Z.eqb (fun l => cast_Date (Log.timestamp l))
                              Z.eqb_eq selected) as [Hnodup Hexact].
  split; [reflexivity|]. split; [|split].
  - apply Sorted_strict; [apply (order_by_asc_date fst)|].
    now apply order_by_NoDup_keys.
  - intros d n. rewrite order_by_In. apply Hexact.
  - rewrite (sum_trend_map date_str (fun _ => None)).
    rewrite (sum_counts_perm _ _ (order_by_perm _ _)).
    apply sum_counts_group_count.
Qed.

Lemma stats_trend_with_dates_witness :
  (Some (day 19400) <> None \/ @None datetime <> None)
  /\ exists stats,
       get_log_stats (day 19600) sample_db (Some (day 19400)) None None
       = Return stats
       /\ sum_trend (LogStats.trend_data stats) = LogStats.total_logs stats.
Proof.
  assert (H : Some (day 19400) <> None \/ @None datetime <> None)
    by (left; discriminate).
  split; [exact H|].
  destruct (stats_trend_with_dates (day 19600) sample_db (Some (day 19400))
                                   None None H)
    as (stats & groups & Hstats & _ & _ & _ & Hsum).
  exists stats. split; [exact Hstats | exact Hsum].
Defined.

(** ** The pages of the list *)

Lemma ascii_compare_lt_trans (a b c : ascii) :
  Ascii.compare a b = Lt -> Ascii.compare b c = Lt -> Ascii.compare a c = Lt.
Proof.
  unfold Ascii.compare. rewrite !N.compare_lt_iff. apply N.lt_trans.
Qed.

Lemma string_compare_lt_trans (a b c : string) :
  String.compare a b = Lt -> String.compare b c = Lt ->
  String.compare a c = Lt.
Proof.
  revert b c. induction a as [|x a IH]; intros [|y b] [|z c]; simpl;
    try congruence.
  destruct (Ascii.compare x y) eqn:Hxy; try discriminate;
    destruct (Ascii.compare y z) eqn:Hyz; try discriminate; intros Hab Hbc.
  - apply Ascii.compare_eq_iff in Hxy, Hyz. subst.
    rewrite (proj2 (N.compare_eq_iff _ _) eq_refl
             : Ascii.compare z z = Eq).
    now apply IH with (b := b).
  - apply Ascii.compare_eq_iff in Hxy. subst. now rewrite Hyz.
  - apply Ascii.compare_eq_iff in Hyz. subst. now rewrite Hxy.
  - now rewrite (ascii_compare_lt_trans x y z Hxy Hyz).
Qed.

Lemma compare_by_eq_refl (c : Log.column) (a : Log.t) :
  Log.compare_by c a a = Eq.
Proof.
  pose proof (compare_by_antisym c a a) as H.
  destruct (Log.compare_by c a a); simpl in H; congruence.
Qed.

Lemma compare_by_lt_trans (c : Log.column) (x y z : Log.t) :
  Log.compare_by c x y = Lt -> Log.compare_by c y z = Lt ->
  Log.compare_by c x z = Lt.
Proof.
  destruct c; simpl; rewrite ?Z.compare_lt_iff; try lia;
    try apply string_compare_lt_trans.
  unfold Log.compare_nullable.
  destruct (Log.metadata_json x), (Log.metadata_json y),
    (Log.metadata_json z); try congruence.
  apply string_compare_lt_trans.
Qed.

(** Equal on the column, two entries compare alike with any third. *)
Lemma compare_by_eq_left (c : Log.column) (x y z : Log.t) :
  Log.compare_by c x y = Eq -> Log.compare_by c x z = Log.compare_by c y z.
Proof.
  destruct c; simpl;
    try (intros H; apply Z.compare_eq in H; now rewrite H);
    try (intros H; apply String.compare_eq_iff in H; now rewrite H).
  unfold Log.compare_nullable.
  destruct (Log.metadata_json x), (Log.metadata_json y); try discriminate;
    try reflexivity.
  intros H. apply String.compare_eq_iff in H. now subst.
Qed.

Lemma compare_by_le_trans (c : Log.column) (x y z : Log.t) :
  Log.compare_by c x y <> Gt -> Log.compare_by c y z <> Gt ->
  Log.compare_by c x z <> Gt.
Proof.
  intros Hxy Hyz.
  destruct (Log.compare_by c x y) eqn:Exy; [| |congruence].
  - now rewrite (compare_by_eq_left c x y z Exy).
  - destruct (Log.compare_by c y z) eqn:Eyz; [| |congruence].
    + pose proof (compare_by_antisym c y z) as Hzy. rewrite Eyz in Hzy.
      simpl in Hzy.
      pose proof (compare_by_antisym c x z) as Hzx.
      rewrite (compare_by_eq_left c z y x Hzy) in Hzx.
      pose proof (compare_by_antisym c x y) as Hyx. rewrite Exy in Hyx.
      rewrite Hyx in Hzx. simpl in Hzx.
      destruct (Log.compare_by c x z); simpl in Hzx; congruence.
    + rewrite (compare_by_lt_trans c x y z Exy Eyz). congruence.
Qed.

Lemma in_order_trans (sort_order : string) (c : Log.column) (x y z : Log.t) :
  in_order sort_order c x y -> in_order sort_order c y z ->
  in_order sort_order c x z.
Proof.
  unfold in_order. destruct (Query.lower_string sort_order =? "asc")%string.
  - apply compare_by_le_trans.
  - intros Hxy Hyz.
    assert (Hswap : forall a b, Log.compare_by c a b <> Lt
                                <-> Log.compare_by c b a <> Gt).
    { intros a b. rewrite (compare_by_antisym c a b).
      destruct (Log.compare_by c a b); simpl; split; congruence. }
    apply Hswap. apply Hswap in Hxy, Hyz.
    now apply compare_by_le_trans with (y := y).
Qed.

Lemma in_order_both (sort_order : string) (c : Log.column) (a b : Log.t) :
  in_order sort_order c a b -> in_order sort_order c b a ->
  Log.compare_by c a b = Eq.
Proof.
  unfold in_order. rewrite (compare_by_antisym c a b).
  destruct (Query.lower_string sort_order =? "asc")%string;
    destruct (Log.compare_by c a b); simpl; congruence.
Qed.

Lemma order_by_in_order (sort_order : string) (c : Log.column)
    (l : list Log.t) :
  Sorted (in_order sort_order c)
         (Query.order_by (sort_direction sort_order (Log.compare_by c)) l).
Proof.
  unfold in_order, sort_direction.
  destruct (Query.lower_string sort_order =? "asc")%string.
  - apply order_by_asc_sorted.
  - apply order_by_desc_sorted.
Qed.

(** Two arrangements of the same entries in an order that tells all of
    them apart are one arrangement. *)
Lemma sorted_arrangement_unique {A : Type} (R : A -> A -> Prop)
    (l1 l2 : list A) :
  (forall x y z, R x y -> R y z -> R x z) ->
  (forall a b, In a l1 -> In b l1 -> R a b -> R b a -> a = b) ->
  Sorted R l1 -> Sorted R l2 -> Permutation l1 l2 -> l1 = l2.
Proof.
  intros Htrans Htold H1 H2.
  apply (Sorted_StronglySorted Htrans) in H1, H2.
  revert l2 H2 Htold.
  induction H1 as [|a l1 Hs1 IH Ha]; intros l2 H2 Htold Hperm.
  - now apply Permutation_nil in Hperm.
  - destruct H2 as [|b l2 Hs2 Hb].
    + apply Permutation_sym, Permutation_nil in Hperm. discriminate.
    + rewrite Forall_forall in Ha, Hb.
      assert (Hab : a = b).
      { assert (Hin_a : In a (b :: l2))
          by (eapply Permutation_in; [exact Hperm | now left]).
        assert (Hin_b : In b (a :: l1))
          by (eapply Permutation_in;
              [apply Permutation_sym; exact Hperm | now left]).
        destruct Hin_a as [Heq|Hin_a]; [now subst|].
        destruct Hin_b as [Heq|Hin_b]; [now subst|].
        apply Htold; [now left | now right | now apply Ha | now apply Hb]. }
      subst b. f_equal. apply IH; [exact Hs2| |].
      * intros x y Hx Hy. apply Htold; now right.
      * now apply Permutation_cons_inv in Hperm.
Qed.

(** When no two entries that meet the filters are equal on the sort
    column, the pages tile the one arrangement of these entries in the
    order asked for, whatever the store does among equal rows: its entry
    of index [i] is the item of index [i mod page_size] on page
    [i / page_size + 1], so that going through the pages meets every
    such entry once, in order. *)
Theorem pages_tile_the_selection (inherited : string -> bool)
    (db : Database) (page_size : Z)
    (start_date end_date : option datetime) (severity : option LogSeverity)
    (source search : option string) (sort_by sort_order : string)
    (c : Log.column) (i : nat) (ordered : list Log.t) :
  1 <= page_size <= 100 ->
  getattr_Log inherited sort_by (Column Log.c_timestamp) = Column c ->
  Z.of_nat i <= int64_max ->
  (forall a b,
      In a ordered -> In b ordered -> Log.compare_by c a b = Eq -> a = b) ->
  Permutation ordered
    (filter (meets_filters start_date end_date severity source search)
            (rows db)) ->
  Sorted (in_order sort_order c) ordered ->
  exists r,
    list_logs inherited db (Z.of_nat i / page_size + 1) page_size start_date
              end_date severity source search sort_by sort_order = Return r
    /\ nth_error (LogListResponse.items r)
                 (Z.to_nat (Z.of_nat i mod page_size))
       = nth_error ordered i.
Proof.
  intros Hsize Hcol Hi Hties Hperm Hsorted.
  assert (Hdiv : 0 <= Z.of_nat i / page_size)
    by (apply Z.div_pos; lia).
  pose proof (Z.mod_pos_bound (Z.of_nat i) page_size) as Hmod.
  pose proof (Z.div_mod (Z.of_nat i) page_size) as Hdm.
  assert (Hsame :
            ordered
            = Query.order_by (sort_direction sort_order (Log.compare_by c))
                (list_selected db start_date end_date severity source search)).
  { rewrite list_selected_meets_filters.
    apply (sorted_arrangement_unique (in_order sort_order c)).
    - apply in_order_trans.
    - intros a b Ha Hb Hab Hba. apply Hties; try assumption.
      now apply in_order_both with (sort_order := sort_order).
    - exact Hsorted.
    - apply order_by_in_order.
    - rewrite Hperm. apply Permutation_sym, order_by_perm. }
  eexists. split.
  - apply list_logs_returns with (c := c);
      [lia | exact Hsize | nia | exact Hcol].
  - cbn [LogListResponse.items]. unfold Query.limit, Query.offset.
    rewrite nth_error_firstn.
    destruct (Nat.ltb_spec (Z.to_nat (Z.of_nat i mod page_size))
                           (Z.to_nat page_size)) as [_|Hge]; [|lia].
    rewrite nth_error_skipn, Hsame. f_equal. nia.
Qed.

Lemma pages_tile_the_selection_witness :
  1 <= 1 <= 100
  /\ getattr_Log Base_attributes "id" (Column Log.c_timestamp)
     = Column Log.c_id
  /\ Z.of_nat 1 <= int64_max
  /\ (forall a b, In a [boot; crash] -> In b [boot; crash] ->
                  Log.compare_by Log.c_id a b = Eq -> a = b)
  /\ Permutation [boot; crash]
       (filter (meets_filters None None None None None) (rows sample_db))
  /\ Sorted (in_order "asc" Log.c_id) [boot; crash]
  /\ exists r,
       list_logs Base_attributes sample_db 2 1 None None None None None
                 "id" "asc" = Return r
       /\ nth_error (LogListResponse.items r) 0 = Some crash.
Proof.
  assert (H1 : 1 <= 1 <= 100) by lia.
  assert (H2 : getattr_Log Base_attributes "id" (Column Log.c_timestamp)
               = Column Log.c_id) by reflexivity.
  assert (H3 : Z.of_nat 1 <= int64_max) by (unfold int64_max; lia).
  assert (H4 : forall a b, In a [boot; crash] -> In b [boot; crash] ->
                           Log.compare_by Log.c_id a b = Eq -> a = b).
  { intros a b [<-|[<-|[]]] [<-|[<-|[]]] H; try reflexivity;
      discriminate H. }
  assert (H5 : Permutation [boot; crash]
                 (filter (meets_filters None None None None None)
                         (rows sample_db))) by reflexivity.
  assert (H6 : Sorted (in_order "asc" Log.c_id) [boot; crash]).
  { repeat constructor. discriminate. }
  split; [exact H1|]. split; [exact H2|]. split; [exact H3|].
  split; [exact H4|]. split; [exact H5|]. split; [exact H6|].
  destruct (pages_tile_the_selection Base_attributes sample_db 1 None None
              None None None "id" "asc" Log.c_id 1 [boot; crash]
              H1 H2 H3 H4 H5 H6)
    as (r & Hr & Hnth).
  exists r. split; [exact Hr|]. exact Hnth.
Defined.

(** A page whose offset the store can take holds what is left of the
    selection after the pages before it, up to the page size: it is empty
    exactly when it lies beyond [total_pages], and such a page is an
    empty answer.  A page whose offset is beyond the 64-bit range ends in
    a server error. *)
Theorem page_length (inherited : string -> bool)
    (db : Database) (page page_size : Z)
    (start_date end_date : option datetime) (severity : option LogSeverity)
    (source search : option string) (sort_by sort_order : string)
    (c : Log.column) :
  1 <= page ->
  1 <= page_size <= 100 ->
  getattr_Log inherited sort_by (Column Log.c_timestamp) = Column c ->
  ((page - 1) * page_size <= int64_max ->
   exists r,
     list_logs inherited db page page_size start_date end_date severity
               source search sort_by sort_order = Return r
     /\ Z.of_nat (List.length (LogListResponse.items r))
        = Z.max 0 (Z.min page_size
                         (LogListResponse.total r - (page - 1) * page_size))
     /\ (LogListResponse.items r = []
         <-> LogListResponse.total_pages r < page))
  /\ (int64_max < (page - 1) * page_size ->
      list_logs inherited db page page_size start_date end_date severity
                source search sort_by sort_order
      = Raise HTTP_500_INTERNAL).
Proof.
  intros Hpage Hsize Hcol. split.
  - intros Hoffset.
    eexists. split; [now apply list_logs_returns with (c := c)|].
    cbn [LogListResponse.items LogListResponse.total
         LogListResponse.total_pages].
    unfold Query.limit, Query.offset, Query.count.
    set (selected := list_selected _ _ _ _ _ _).
    set (ordered := Query.order_by _ selected).
    assert (Hlen : List.length ordered = List.length selected)
      by apply order_by_length.
    assert (Hitems :
              Z.of_nat (List.length
                          (firstn (Z.to_nat page_size)
                                  (skipn (Z.to_nat ((page - 1) * page_size))
                                         ordered)))
              = Z.max 0 (Z.min page_size
                               (Z.of_nat (List.length selected)
                                - (page - 1) * page_size))).
    { rewrite length_firstn, length_skipn, Hlen. nia. }
    split; [exact Hitems|].
    set (total := Z.of_nat (List.length selected)) in *.
    assert (Hpages : (total + page_size - 1) / page_size < page
                     <-> total <= (page - 1) * page_size).
    { split; intros H.
      - pose proof (Z.mod_pos_bound (total + page_size - 1) page_size).
        pose proof (Z.div_mod (total + page_size - 1) page_size).
        nia.
      - apply Z.div_lt_upper_bound; nia. }
    rewrite Hpages. split; intros H.
    + rewrite H in Hitems. simpl in Hitems. lia.
    + destruct (firstn _ _); [reflexivity|].
      simpl List.length in Hitems. lia.
  - intros Hbeyond. unfold list_logs, settings.MAX_PAGE_SIZE.
    destruct (Z.leb_spec 1 page) as [_|]; [|lia].
    destruct (Z.leb_spec 1 page_size) as [_|]; [|lia].
    destruct (Z.leb_spec page_size 100) as [_|]; [|lia].
    cbn [negb andb]. rewrite Hcol. cbv zeta.
    destruct (Z.ltb_spec int64_max ((page - 1) * page_size)) as [_|];
      [reflexivity|lia].
Qed.

Lemma page_length_witness :
  1 <= 3
  /\ 1 <= 1 <= 100
  /\ getattr_Log Base_attributes "id" (Column Log.c_timestamp)
     = Column Log.c_id
  /\ (3 - 1) * 1 <= int64_max
  /\ exists r,
       list_logs Base_attributes sample_db 3 1 None None None None None
                 "id" "asc" = Return r
       /\ LogListResponse.items r = [].
Proof.
  assert (H0 : 1 <= 3) by lia.
  assert (H1 : 1 <= 1 <= 100) by lia.
  assert (H2 : getattr_Log Base_attributes "id" (Column Log.c_timestamp)
               = Column Log.c_id) by reflexivity.
  assert (H3 : (3 - 1) * 1 <= int64_max) by (unfold int64_max; lia).
  split; [exact H0|]. split; [exact H1|]. split; [exact H2|].
  split; [exact H3|].
  destruct (proj1 (page_length Base_attributes sample_db 3 1 None None None
                               None None "id" "asc" Log.c_id H0 H1 H2) H3)
    as (r & Hr & _ & Hempty).
  exists r. split; [exact Hr|]. apply Hempty.
  unfold list_logs in Hr. vm_compute in Hr. injection Hr as <-.
  vm_compute. reflexivity.
Defined.

(** ** The sources *)

Lemma distinct_In (l : list string) (s : string) :
  In s (distinct l) <-> In s l.
Proof.
  induction l as [|x l IH]; simpl; [reflexivity|].
  rewrite filter_In, IH, negb_true_iff, String.eqb_neq.
  destruct (String.eqb_spec s x) as [->|Hne]; intuition congruence.
Qed.

Lemma distinct_NoDup (l : list string) : NoDup (distinct l).
Proof.
  induction l as [|x l IH]; simpl; constructor.
  - rewrite filter_In, negb_true_iff, String.eqb_neq. intros [_ H].
    now apply H.
  - now apply NoDup_filter.
Qed.

Lemma Sorted_strict_strings (l : list string) :
  Sorted (fun a b => Query.asc String.compare a b = true) l ->
  NoDup l ->
  Sorted (fun a b => String.compare a b = Lt) l.
Proof.
  induction 1 as [|a l Hsorted IH Hhd]; intros Hnodup; [constructor|].
  inversion Hnodup as [|? ? Hnotin Hrest]; subst.
  constructor; [now apply IH|].
  destruct Hhd as [|b l' Hab]; constructor.
  unfold Query.asc in Hab.
  destruct (String.compare a b) eqn:Hcmp; try reflexivity; try discriminate.
  apply String.compare_eq_iff in Hcmp. subst. exfalso. apply Hnotin. now left.
Qed.

(** The sources handler gives every source that an entry of the table
    has, each once, in ascending order of the strings. *)
Theorem get_sources_spec (db : Database) :
  exists sources,
    get_sources db = Return sources
    /\ (forall s, In s sources
                  <-> exists l, In l (rows db) /\ Log.source l = s)
    /\ Sorted (fun a b => String.compare a b = Lt) sources.
Proof.
  eexists. split; [reflexivity|]. split.
  - intros s. rewrite order_by_In, distinct_In, in_map_iff.
    split; intros (l & H1 & H2); exists l; now split.
  - apply Sorted_strict_strings.
    + apply order_by_sorted. intros a b. unfold Query.asc.
      rewrite (String.compare_antisym a b).
      destruct (String.compare b a); simpl; auto.
    + eapply Permutation_NoDup;
        [apply Permutation_sym, order_by_perm | apply distinct_NoDup].
Qed.


(** ** Creation *)

Lemma absent_of_sequence (db : Database) :
  well_keyed db -> absent db (logs_id_seq db).
Proof.
  intros [_ Hbelow] l Hin. rewrite Forall_forall in Hbelow.
  specialize (Hbelow l Hin). lia.
Qed.

Lemma find_app_absent {A : Type} (f : A -> bool) (l l' : list A) :
  find f (l ++ l') = match find f l with
                     | Some x => Some x
                     | None => find f l'
                     end.
Proof.
  induction l as [|x l IH]; simpl; [reflexivity|].
  now destruct (f x).
Qed.

(** Once the sequence is beyond the range of the column, a create ends
    in a server error and the store is as it was. *)
Lemma create_beyond_the_sequence (utcnow now : datetime) (db : Database)
    (log_data : LogCreate.t) :
  in_int32 (logs_id_seq db) = false ->
  create_log utcnow now db log_data = (Raise HTTP_500_INTERNAL, db).
Proof. intros H. unfold create_log. now rewrite H. Qed.

(** A create on a store whose ids lie below the sequence, the sequence
    being in the range of the column, gives the entry the id of the
    sequence, which no entry has; a get of that id then returns the
    entry, and the gets of the other ids return what they did.  The entry
    has the fields of the payload; its timestamp is the one of the
    payload or else the time that the handler reads, and it is created
    and updated at the time that the store reads. *)
Theorem create_then_get (utcnow now : datetime) (db : Database)
    (log_data : LogCreate.t) :
  well_keyed db ->
  int32_min <= logs_id_seq db <= int32_max ->
  exists log db',
    create_log utcnow now db log_data = (Return log, db')
    /\ Log.id log = logs_id_seq db
    /\ absent db (Log.id log)
    /\ get_log db' (Log.id log) = Return log
    /\ (forall log_id, log_id <> Log.id log ->
          get_log db' log_id = get_log db log_id)
    /\ Log.message log = LogCreate.message log_data
    /\ Log.severity log = LogCreate.severity log_data
    /\ Log.source log = LogCreate.source log_data
    /\ Log.metadata_json log = LogCreate.metadata_json log_data
    /\ Log.timestamp log = match LogCreate.timestamp log_data with
                           | Some t => t
                           | None => utcnow
                           end
    /\ Log.created_at log = now
    /\ Log.updated_at log = now
    /\ well_keyed db'.
Proof.
  intros Hkeyed Hrange. apply in_int32_true in Hrange.
  unfold create_log. rewrite Hrange. cbn [negb].
  eexists. eexists. split; [reflexivity|].
  cbn [Log.id Log.message Log.severity Log.source Log.metadata_json
       Log.timestamp Log.created_at Log.updated_at].
  pose proof (absent_of_sequence db Hkeyed) as Habsent.
  pose proof Habsent as Hnone. apply first_by_id_none in Hnone.
  unfold first_by_id in Hnone.
  split; [reflexivity|]. split; [exact Habsent|]. split; [|split].
  - unfold get_log, first_by_id. rewrite Hrange. cbn [negb rows].
    rewrite find_app_absent, Hnone. simpl. now rewrite Z.eqb_refl.
  - intros log_id Hne. unfold get_log, first_by_id. cbn [rows].
    destruct (in_int32 log_id); [|reflexivity]. cbn [negb].
    rewrite find_app_absent.
    destruct (find (fun l => Log.id l =? log_id) (rows db)); [reflexivity|].
    simpl.
    destruct (Z.eqb_spec (logs_id_seq db) log_id); [congruence|reflexivity].
  - do 7 (split; [reflexivity|]).
    destruct Hkeyed as [Hnodup Hbelow]. split; cbn [rows logs_id_seq].
    + rewrite map_app. simpl. apply NoDup_app; [exact Hnodup | | ].
      * repeat constructor. intros [].
      * intros i Hi [<-|[]]. apply in_map_iff in Hi.
        destruct Hi as (l & Hid & Hl). now apply Habsent in Hl.
    + apply Forall_app. split.
      * eapply Forall_impl; [|exact Hbelow]. simpl. intros l Hl. lia.
      * repeat constructor. simpl. lia.
Qed.

Lemma create_then_get_witness :
  well_keyed sample_db
  /\ int32_min <= logs_id_seq sample_db <= int32_max
  /\ exists log db',
       create_log (day 19600) (day 19600 + 7) sample_db
                  (LogCreate.mk "started" INFO "svc-c" None None)
       = (Return log, db')
       /\ Log.id log = 3
       /\ get_log db' 3 = Return log
       /\ Log.timestamp log = day 19600
       /\ Log.created_at log = day 19600 + 7.
Proof.
  assert (H : well_keyed sample_db).
  { split; simpl.
    - repeat constructor; simpl; intuition discriminate.
    - repeat constructor. }
  assert (H0 : int32_min <= logs_id_seq sample_db <= int32_max)
    by (unfold int32_min, int32_max; simpl; lia).
  split; [exact H|]. split; [exact H0|].
  destruct (create_then_get (day 19600) (day 19600 + 7) sample_db
              (LogCreate.mk "started" INFO "svc-c" None None) H H0)
    as (log & db' & Hcreate & Hid & _ & Hget & _ & _ & _ & _ & _ & Htime
        & Hcreated & _).
  exists log, db'. split; [exact Hcreate|]. split; [exact Hid|].
  rewrite Hid in Hget. split; [exact Hget|].
  split; [exact Htime | exact Hcreated].
Defined.

(** ** What a write leaves alone *)

Lemma write_row_ids (db : Database) (log : Log.t) :
  map Log.id (rows (write_row db log)) = map Log.id (rows db).
Proof.
  unfold write_row. cbn [rows].
  induction (rows db) as [|x l IH]; simpl; [reflexivity|].
  rewrite IH. destruct (Z.eqb_spec (Log.id x) (Log.id log)); congruence.
Qed.

Lemma first_by_id_write_row_other (db : Database) (log : Log.t) (log_id : Z) :
  log_id <> Log.id log ->
  first_by_id (write_row db log) log_id = first_by_id db log_id.
Proof.
  intros Hne. unfold first_by_id, write_row. cbn [rows].
  induction (rows db) as [|x l IH]; simpl; [reflexivity|].
  destruct (Z.eqb_spec (Log.id x) (Log.id log)) as [Heq|Hdiff].
  - destruct (Z.eqb_spec (Log.id log) log_id); [congruence|].
    destruct (Z.eqb_spec (Log.id x) log_id); [congruence|]. exact IH.
  - destruct (Z.eqb_spec (Log.id x) log_id); [reflexivity|exact IH].
Qed.

Lemma first_by_id_filter_other (l : list Log.t) (log_id other : Z) :
  other <> log_id ->
  find (fun x => Log.id x =? other)
       (filter (fun x => negb (Log.id x =? log_id)) l)
  = find (fun x => Log.id x =? other) l.
Proof.
  intros Hne. induction l as [|x l IH]; simpl; [reflexivity|].
  destruct (Z.eqb_spec (Log.id x) log_id) as [Heq|Hdiff]; simpl.
  - destruct (Z.eqb_spec (Log.id x) other); [congruence|exact IH].
  - destruct (Z.eqb_spec (Log.id x) other); [reflexivity|exact IH].
Qed.

(** The store after a PUT request, whatever its outcome. *)
Lemma put_log_store (now : datetime) (db : Database) (log_id : Z)
    (body : list (string * json)) :
  snd (put_log now db log_id body) = db
  \/ exists log log',
       first_by_id db log_id = Some log
       /\ Log.id log' = log_id
       /\ Log.created_at log' = Log.created_at log
       /\ (Log.updated_at log' = Log.updated_at log
           \/ Log.updated_at log' = now)
       /\ snd (put_log now db log_id body) = write_row db log'.
Proof.
  unfold put_log.
  destruct (LogUpdate.model_validate body) as [log_data|]; [|now left].
  unfold update_log.
  destruct (in_int32 log_id); cbn [negb]; [|now left].
  destruct (first_by_id db log_id) as [log|] eqn:Hlog; [|now left].
  destruct (flush _ _ _) as [log'|] eqn:Hflush; [|now left].
  right. exists log, log'. apply flush_some in Hflush.
  destruct Hflush as (_ & Hid & _ & Hcreated & Hupdated).
  apply first_by_id_some in Hlog. destruct Hlog as [_ Hlog].
  repeat split; try assumption. congruence.
Qed.

(** An update changes no entry but the one of its id: whatever the body
    and the outcome, the gets of the other ids return what they did, and
    the table has as many rows, with the same ids, and the same sequence. *)
Theorem put_log_touches_one_entry (now : datetime) (db : Database)
    (log_id : Z) (body : list (string * json)) :
  let db' := snd (put_log now db log_id body) in
  (forall other, other <> log_id -> get_log db' other = get_log db other)
  /\ map Log.id (rows db') = map Log.id (rows db)
  /\ logs_id_seq db' = logs_id_seq db
  /\ (forall e, fst (put_log now db log_id body) = Raise e -> db' = db).
Proof.
  cbv zeta. split; [|split; [|split]].
  - intros other Hne.
    destruct (put_log_store now db log_id body)
      as [->|(log & log' & _ & Hid & _ & _ & ->)]; [reflexivity|].
    unfold get_log. rewrite first_by_id_write_row_other by congruence.
    reflexivity.
  - destruct (put_log_store now db log_id body)
      as [->|(log & log' & _ & _ & _ & _ & ->)]; [reflexivity|].
    apply write_row_ids.
  - destruct (put_log_store now db log_id body)
      as [->|(log & log' & _ & _ & _ & _ & ->)]; reflexivity.
  - intros e. unfold put_log.
    destruct (LogUpdate.model_validate body); [|reflexivity].
    unfold update_log. destruct (in_int32 log_id); [|reflexivity].
    cbn [negb]. destruct (first_by_id db log_id); [|reflexivity].
    destruct (flush _ _ _); [discriminate|reflexivity].
Qed.

Lemma NoDup_ids_filter (f : Log.t -> bool) (l : list Log.t) :
  NoDup (map Log.id l) -> NoDup (map Log.id (filter f l)).
Proof.
  induction l as [|x l IH]; simpl; intros H; [constructor|].
  inversion H as [|? ? Hnotin Hrest]; subst.
  destruct (f x); simpl; [|now apply IH].
  constructor; [|now apply IH].
  rewrite in_map_iff in *. intros (y & Hy & Hin). apply Hnotin.
  exists y. apply filter_In in Hin. tauto.
Qed.

Lemma filter_one_out (l : list Log.t) (log_id : Z) :
  NoDup (map Log.id l) ->
  (exists x, In x l /\ Log.id x = log_id) ->
  S (List.length (filter (fun x => negb (Log.id x =? log_id)) l))
  = List.length l.
Proof.
  induction l as [|x l IH]; simpl; intros Hnodup (y & Hy & Hid);
    [contradiction|].
  inversion Hnodup as [|? ? Hnotin Hrest]; subst.
  destruct (Z.eqb_spec (Log.id x) (Log.id y)) as [Heq|Hne]; simpl.
  - f_equal. clear IH.
    assert (Hall : forall z, In z l -> negb (Log.id z =? Log.id y) = true).
    { intros z Hz. apply negb_true_iff, Z.eqb_neq. intros Hzy.
      apply Hnotin. rewrite Heq, <- Hzy. now apply in_map. }
    clear - Hall. induction l as [|z l IH]; simpl; [reflexivity|].
    rewrite (Hall z) by now left. simpl. f_equal. apply IH.
    intros w Hw. apply Hall. now right.
  - f_equal. apply IH; [exact Hrest|].
    destruct Hy as [->|Hy]; [congruence|]. now exists y.
Qed.

(** A delete takes out the entry of its id and touches no other: the gets
    of the other ids return what they did, the sequence stays, so that the
    id is not given again, and, for an id in the range of the column, on a
    table whose ids differ exactly one row goes. *)
Theorem delete_log_touches_one_entry (db : Database) (log_id : Z) :
  let db' := snd (delete_log db log_id) in
  (forall other, other <> log_id -> get_log db' other = get_log db other)
  /\ logs_id_seq db' = logs_id_seq db
  /\ (int32_min <= log_id <= int32_max ->
      (forall l, In l (rows db') <-> In l (rows db) /\ Log.id l <> log_id)
      /\ (NoDup (map Log.id (rows db)) ->
          (exists l, In l (rows db) /\ Log.id l = log_id) ->
          S (List.length (rows db')) = List.length (rows db))).
Proof.
  cbv zeta. unfold delete_log.
  destruct (in_int32 log_id) eqn:Hrange; cbn [negb].
  - destruct (first_by_id db log_id) as [log|] eqn:Hlog; cbn [snd].
    + apply first_by_id_some in Hlog. destruct Hlog as [_ ->].
      cbn [rows logs_id_seq]. split; [|split; [|intros _; split]].
      * intros other Hne. unfold get_log, first_by_id. cbn [rows].
        destruct (in_int32 other); [|reflexivity]. cbn [negb].
        now rewrite first_by_id_filter_other.
      * reflexivity.
      * intros l. rewrite filter_In, negb_true_iff, Z.eqb_neq. reflexivity.
      * apply filter_one_out.
    + apply first_by_id_none in Hlog. split; [|split; [|intros _; split]].
      * reflexivity.
      * reflexivity.
      * intros l. split; [|tauto]. intros Hl. split; [exact Hl|].
        now apply Hlog.
      * intros _ (l & Hl & Hid). now apply Hlog in Hl.
  - cbn [snd]. split; [reflexivity|]. split; [reflexivity|].
    intros Hbounds. apply in_int32_true in Hbounds. congruence.
Qed.

(** ** Invariants of the store *)

Lemma serve_keeps_keys (now : datetime) (db : Database) (r : request) :
  well_keyed db -> well_keyed (serve now db r).
Proof.
  intros Hkeyed. destruct r as [utcnow log_data|log_id body|log_id];
    cbn [serve].
  - destruct (in_int32 (logs_id_seq db)) eqn:Hrange.
    + apply in_int32_bounds in Hrange.
      destruct (create_then_get utcnow now db log_data Hkeyed Hrange)
        as (log & db' & Hcreate & Hrest).
      rewrite Hcreate. cbn [snd]. apply Hrest.
    + now rewrite create_beyond_the_sequence.
  - destruct (put_log_store now db log_id body)
      as [->|(log & log' & Hlog & Hid & _ & _ & ->)]; [exact Hkeyed|].
    destruct Hkeyed as [Hnodup Hbelow]. split.
    + now rewrite write_row_ids.
    + apply first_by_id_some in Hlog. destruct Hlog as [Hin Hlogid].
      rewrite Forall_forall in *. unfold write_row. cbn [rows logs_id_seq].
      intros x Hx. apply in_map_iff in Hx. destruct Hx as (y & <- & Hy).
      destruct (Log.id y =? Log.id log'); [|now apply Hbelow].
      rewrite Hid, <- Hlogid. now apply Hbelow.
  - unfold delete_log. destruct (in_int32 log_id); [|exact Hkeyed].
    cbn [negb]. destruct (first_by_id db log_id); [|exact Hkeyed].
    destruct Hkeyed as [Hnodup Hbelow]. split; cbn [snd rows logs_id_seq].
    + now apply NoDup_ids_filter.
    + rewrite Forall_forall in *. intros x Hx. apply filter_In in Hx.
      now apply Hbelow.
Qed.

Lemma serve_keeps_stamps (now now' : datetime) (db : Database) (r : request) :
  now <= now' -> stamped now db -> stamped now' (serve now' db r).
Proof.
  intros Hclock Hstamped.
  assert (Hlater : stamped now' db).
  { eapply Forall_impl; [|exact Hstamped]. simpl. intros l Hl. lia. }
  destruct r as [utcnow log_data|log_id body|log_id]; cbn [serve].
  - unfold stamped, create_log.
    destruct (in_int32 (logs_id_seq db)); [|exact Hlater].
    cbn [negb snd rows]. apply Forall_app. split; [exact Hlater|].
    repeat constructor; simpl; lia.
  - destruct (put_log_store now' db log_id body)
      as [->|(log & log' & Hlog & Hid & Hcreated & Hupdated & ->)];
      [exact Hlater|].
    apply first_by_id_some in Hlog. destruct Hlog as [Hin _].
    unfold stamped in *. rewrite Forall_forall in *.
    unfold write_row. cbn [rows].
    intros x Hx. apply in_map_iff in Hx. destruct Hx as (y & <- & Hy).
    destruct (Log.id y =? Log.id log'); [|now apply Hlater].
    specialize (Hlater log Hin). destruct Hupdated as [-> | ->]; lia.
  - unfold delete_log. destruct (in_int32 log_id); [|exact Hlater].
    cbn [negb]. destruct (first_by_id db log_id); [|exact Hlater].
    cbn [snd]. unfold stamped in *. cbn [rows].
    rewrite Forall_forall in *. intros x Hx. apply filter_In in Hx.
    now apply Hlater.
Qed.

(** Over every run of creates, updates and deletes whose times do not go
    back, the ids of the entries differ and lie below the sequence, and no
    entry is updated before it was created. *)
Theorem run_keeps_invariants (start : datetime) (db : Database)
    (requests : list (datetime * request)) :
  well_keyed db ->
  stamped start db ->
  clock_advances start requests ->
  well_keyed (run db requests)
  /\ Forall (fun l => Log.created_at l <= Log.updated_at l)
            (rows (run db requests)).
Proof.
  revert start db.
  induction requests as [|[now r] requests IH]; intros start db Hkeyed
    Hstamped Hclock; simpl.
  - split; [exact Hkeyed|].
    eapply Forall_impl; [|exact Hstamped]. simpl. intros l Hl. lia.
  - destruct Hclock as [Hnow Hclock].
    apply (IH now).
    + now apply serve_keeps_keys.
    + now apply serve_keeps_stamps with (now := start).
    + exact Hclock.
Qed.

Lemma run_keeps_invariants_witness :
  well_keyed empty_database
  /\ stamped 0 empty_database
  /\ clock_advances 0
       [(day 1, Create (day 1 - 5)
                       (LogCreate.mk "boot" INFO "svc-a" None None));
        (day 2, Put 1 [("severity", JString "ERROR")]);
        (day 2, Delete 1)]
  /\ well_keyed
       (run empty_database
          [(day 1, Create (day 1 - 5)
                       (LogCreate.mk "boot" INFO "svc-a" None None));
           (day 2, Put 1 [("severity", JString "ERROR")]);
           (day 2, Delete 1)]).
Proof.
  assert (H1 : well_keyed empty_database) by (split; constructor).
  assert (H2 : stamped 0 empty_database) by constructor.
  assert (H3 : clock_advances 0
                 [(day 1, Create (day 1 - 5)
                       (LogCreate.mk "boot" INFO "svc-a" None None));
                  (day 2, Put 1 [("severity", JString "ERROR")]);
                  (day 2, Delete 1)]).
  { simpl. unfold day, microseconds_per_day. lia. }
  split; [exact H1|]. split; [exact H2|]. split; [exact H3|].
  exact (proj1 (run_keeps_invariants 0 empty_database _ H1 H2 H3)).
Defined.


(** ** The source filter as a pattern *)

Lemma like_match_any_sequence (p : list Query.like_token) (s : list ascii) :
  Query.like_match (Query.Any_sequence :: p) s
  = Query.like_match p s
    || match s with
       | [] => false
       | _ :: s' => Query.like_match (Query.Any_sequence :: p) s'
       end.
Proof. destruct s; reflexivity. Qed.

Lemma like_match_skip (p : list Query.like_token) (pre s : list ascii) :
  Query.like_match p s = true ->
  Query.like_match (Query.Any_sequence :: p) (pre ++ s) = true.
Proof.
  intros H. induction pre as [|c pre IH].
  - rewrite like_match_any_sequence. cbn [app]. now rewrite H.
  - rewrite like_match_any_sequence. cbn [app]. rewrite IH.
    apply orb_true_r.
Qed.

Lemma like_match_any_sequence_iff (p : list Query.like_token)
    (s : list ascii) :
  Query.like_match (Query.Any_sequence :: p) s = true
  <-> exists pre post, s = pre ++ post /\ Query.like_match p post = true.
Proof.
  split.
  - induction s as [|c s IH]; rewrite like_match_any_sequence;
      intros H; apply orb_prop in H; destruct H as [H|H];
      try discriminate.
    + now exists [], [].
    + now exists [], (c :: s).
    + destruct (IH H) as (pre & post & -> & Hpost).
      now exists (c :: pre), post.
  - intros (pre & post & -> & H). now apply like_match_skip.
Qed.

Lemma list_ascii_of_string_app (a b : string) :
  list_ascii_of_string (a ++ b)
  = list_ascii_of_string a ++ list_ascii_of_string b.
Proof. induction a as [|c a IH]; simpl; [reflexivity|]. now rewrite IH. Qed.

Lemma like_tokens_app (a rest : list ascii) :
  forallb (fun c => negb (Ascii.eqb c Query.backslash)) a = true ->
  Query.like_tokens (a ++ rest)
  = Query.like_tokens a ++ Query.like_tokens rest.
Proof.
  induction a as [|c a IH]; simpl; [reflexivity|].
  intros H. apply andb_prop in H. destruct H as [Hc Ha].
  apply negb_true_iff in Hc. rewrite Hc.
  destruct (Ascii.eqb c "%"); [now rewrite IH|].
  destruct (Ascii.eqb c "_"); now rewrite IH.
Qed.

Lemma like_match_itself (a : list ascii) (p : list Query.like_token)
    (s : list ascii) :
  forallb (fun c => negb (Ascii.eqb c Query.backslash)) a = true ->
  Query.like_match p s = true ->
  Query.like_match (Query.like_tokens a ++ p) (a ++ s) = true.
Proof.
  intros Ha Hp. induction a as [|c a IH]; simpl; [exact Hp|].
  simpl in Ha. apply andb_prop in Ha. destruct Ha as [Hc Ha].
  apply negb_true_iff in Hc. rewrite Hc. specialize (IH Ha).
  destruct (Ascii.eqb c "%").
  - change (Query.like_match
              (Query.Any_sequence :: Query.like_tokens a ++ p)
              ([c] ++ (a ++ s)) = true).
    now apply like_match_skip.
  - destruct (Ascii.eqb c "_"); simpl; [exact IH|].
    now rewrite Ascii.eqb_refl, IH.
Qed.

(** A value matches the pattern made of itself between two [%], when it
    has no backslash. *)
Lemma ilike_itself (s : string) :
  no_backslash s = true -> Query.ilike s ("%" ++ s ++ "%")%string = true.
Proof.
  intros H. unfold Query.ilike, no_backslash in *.
  change ("%" ++ s ++ "%")%string with (String "%" (s ++ "%")%string).
  cbn [list_ascii_of_string Query.like_tokens].
  change (Ascii.eqb "%" "%") with true. cbv iota.
  rewrite list_ascii_of_string_app, like_tokens_app by exact H.
  rewrite <- (app_nil_r (list_ascii_of_string s)) at 2.
  apply (like_match_skip _ []).
  now apply like_match_itself.
Qed.

Lemma filter_length_le {A : Type} (f g : A -> bool) (l : list A) :
  (forall x, f x = true -> g x = true) ->
  (List.length (filter f l) <= List.length (filter g l))%nat.
Proof.
  intros Hfg. induction l as [|x l IH]; simpl; [lia|].
  destruct (f x) eqn:Hf.
  - rewrite (Hfg x Hf). simpl. lia.
  - destruct (g x); simpl; lia.
Qed.

(** With a source filter that has no backslash, an entry that the export
    writes is among the entries that the list selects under the same
    filters, and the export has no more data rows than the list counts. *)
Theorem export_within_list (db : Database)
    (start_date end_date : option datetime) (severity : option LogSeverity)
    (source : option string) :
  (forall s, source = Some s -> no_backslash s = true) ->
  (forall l, In l (export_selected db start_date end_date severity source) ->
             In l (list_selected db start_date end_date severity source None))
  /\ Query.count (export_selected db start_date end_date severity source)
     <= Query.count
          (list_selected db start_date end_date severity source None).
Proof.
  intros Hsource.
  assert (Himp : forall l,
             Query.and_ (export_conditions start_date end_date severity
                                           source) l = true ->
             Query.and_ (list_conditions start_date end_date severity source
                                         None) l = true).
  { intros l. unfold export_conditions, list_conditions.
    rewrite <- (app_nil_r (when_nonempty source source_eq)).
    rewrite !and_when_given, !and_when_nonempty.
    intros (H1 & H2 & H3 & H4 & _).
    repeat split; try assumption.
    intros s Hs Hne. specialize (H4 s Hs Hne). unfold source_eq in H4.
    apply String.eqb_eq in H4. unfold source_ilike. rewrite H4.
    apply ilike_itself. now apply Hsource. }
  split.
  - intros l. unfold export_selected, list_selected.
    rewrite !where_if_filter, !filter_In. intros [Hin H].
    split; [exact Hin|]. now apply Himp.
  - unfold export_selected, list_selected, Query.count.
    rewrite !where_if_filter. apply inj_le. now apply filter_length_le.
Qed.

Lemma export_within_list_witness :
  (forall s, Some "svc-a" = Some s -> no_backslash s = true)
  /\ Query.count (export_selected sample_db None None None (Some "svc-a"))
     <= Query.count (list_selected sample_db None None None (Some "svc-a")
                                   None).
Proof.
  assert (H : forall s, Some "svc-a" = Some s -> no_backslash s = true)
    by (intros s [= <-]; reflexivity).
  split; [exact H|].
  exact (proj2 (export_within_list sample_db None None None (Some "svc-a") H)).
Defined.

Lemma like_tokens_plain (a rest : list ascii) :
  forallb (fun c => negb (Ascii.eqb c "%" || Ascii.eqb c "_"
                          || Ascii.eqb c Query.backslash)) a = true ->
  Query.like_tokens (a ++ rest)
  = map Query.Literal a ++ Query.like_tokens rest.
Proof.
  induction a as [|c a IH]; simpl; [reflexivity|].
  intros H. apply andb_prop in H. destruct H as [Hc Ha].
  apply negb_true_iff in Hc.
  apply orb_false_elim in Hc. destruct Hc as [Hc Hback].
  apply orb_false_elim in Hc. destruct Hc as [Hpercent Hunder].
  rewrite Hpercent, Hunder, Hback. now rewrite IH.
Qed.

Lemma like_match_literals (cs : list ascii) (p : list Query.like_token)
    (v : list ascii) :
  Query.like_match (map Query.Literal cs ++ p) v = true
  <-> exists mid post,
        v = mid ++ post
        /\ map Query.lower mid = map Query.lower cs
        /\ Query.like_match p post = true.
Proof.
  revert v. induction cs as [|c cs IH]; intros v; simpl.
  - split.
    + intros H. now exists [], v.
    + intros (mid & post & -> & Hmid & H).
      destruct mid; [exact H|discriminate].
  - destruct v as [|d v].
    + split; [discriminate|].
      intros (mid & post & Hv & Hmid & _).
      destruct mid; [discriminate Hmid|discriminate Hv].
    + rewrite andb_true_iff, IH, Ascii.eqb_eq. split.
      * intros (Hcd & mid & post & -> & Hmid & H).
        exists (d :: mid), post. simpl. repeat split; congruence.
      * intros (mid & post & Hv & Hmid & H).
        destruct mid as [|e mid]; [discriminate Hmid|].
        simpl in Hv, Hmid. injection Hv as -> ->. injection Hmid as He Hmid.
        split; [congruence|]. now exists mid, post.
Qed.

Lemma like_match_all (v : list ascii) :
  Query.like_match [Query.Any_sequence] v = true.
Proof.
  induction v as [|c v IH]; [reflexivity|].
  rewrite like_match_any_sequence, IH. apply orb_true_r.
Qed.

Lemma string_of_list_ascii_app (a b : list ascii) :
  string_of_list_ascii (a ++ b)
  = (string_of_list_ascii a ++ string_of_list_ascii b)%string.
Proof. induction a as [|c a IH]; simpl; [reflexivity|]. now rewrite IH. Qed.

(** For a value and a filter of ASCII characters, the filter without [%],
    [_] and backslash, the pattern that the list makes of the filter
    matches the values in which the filter occurs, the case of the
    letters apart. *)
Theorem ilike_contains_spec (value s : string) :
  is_ascii value = true ->
  is_ascii s = true ->
  pattern_free s = true ->
  Query.ilike value ("%" ++ s ++ "%")%string = true
  <-> contains (Query.lower_string value) (Query.lower_string s).
Proof.
  intros _ _ Hfree. unfold Query.ilike, pattern_free, contains in *.
  change ("%" ++ s ++ "%")%string with (String "%" (s ++ "%")%string).
  cbn [list_ascii_of_string Query.like_tokens].
  change (Ascii.eqb "%" "%") with true. cbv iota.
  rewrite list_ascii_of_string_app, like_tokens_plain by exact Hfree.
  change (Query.like_tokens (list_ascii_of_string "%"))
    with [Query.Any_sequence].
  rewrite like_match_any_sequence_iff.
  setoid_rewrite like_match_literals.
  unfold Query.lower_string. split.
  - intros (pre & rest & Hv & mid & post & -> & Hmid & _).
    exists (string_of_list_ascii (map Query.lower pre)),
           (string_of_list_ascii (map Query.lower post)).
    rewrite Hv, !map_app, !string_of_list_ascii_app, Hmid. reflexivity.
  - intros (pre & post & H).
    apply (f_equal list_ascii_of_string) in H.
    rewrite !list_ascii_of_string_app in H.
    rewrite !list_ascii_of_string_of_list_ascii in H.
    apply map_eq_app in H. destruct H as (v1 & rest & Hv & H1 & H).
    apply map_eq_app in H. destruct H as (v2 & v3 & Hrest & H2 & H3).
    exists v1, rest. split; [exact Hv|].
    exists v2, v3. split; [exact Hrest|]. split; [exact H2|].
    apply like_match_all.
Qed.

Lemma ilike_contains_spec_witness :
  is_ascii "my-svc-a" = true
  /\ is_ascii "SVC" = true
  /\ pattern_free "SVC" = true
  /\ (Query.ilike "my-svc-a" "%SVC%" = true
      <-> contains (Query.lower_string "my-svc-a") (Query.lower_string "SVC")).
Proof.
  assert (H1 : is_ascii "my-svc-a" = true) by reflexivity.
  assert (H2 : is_ascii "SVC" = true) by reflexivity.
  assert (H : pattern_free "SVC" = true) by reflexivity.
  split; [exact H1|]. split; [exact H2|]. split; [exact H|].
  exact (ilike_contains_spec "my-svc-a" "SVC" H1 H2 H).
Defined.

(** A backslash in the filter is read as an escape: the entry whose source
    is the filter itself is written by the export and not selected by the
    list. *)
Example backslash_in_source_filter :
  let s := ("a" ++ String Query.backslash "b")%string in
  let db := mkDatabase [Log.mk 1 0 "m" INFO s None 0 0] 2 in
  export_selected db None None None (Some s) = rows db
  /\ list_selected db None None None (Some s) None = [].
Proof. split; reflexivity. Qed.


(** ** The lines of the export *)

Lemma append_assoc (a b c : string) :
  ((a ++ b) ++ c = a ++ (b ++ c))%string.
Proof. induction a as [|x a IH]; simpl; [reflexivity|]. now rewrite IH. Qed.

Lemma special_at_break (c : ascii) (s s' : string) :
  s = String c s' -> at_break s -> csv.special c = true.
Proof.
  intros -> (d & t & [= -> ->] & [-> | ->]); reflexivity.
Qed.

Lemma quote_not_at_break (s : string) : ~ at_break (String csv.quotechar s).
Proof. intros (c & s' & [= <- <-] & [H|H]); discriminate H. Qed.

Lemma plain_prefix (a b r1 r2 : string) :
  csv.needs_quotes a = false ->
  csv.needs_quotes b = false ->
  at_break r1 -> at_break r2 ->
  (a ++ r1 = b ++ r2)%string ->
  a = b /\ r1 = r2.
Proof.
  unfold csv.needs_quotes.
  revert b. induction a as [|x a IH]; intros [|y b] Ha Hb H1 H2 Heq;
    simpl in *.
  - now split.
  - apply orb_false_elim in Hb. destruct Hb as [Hy _].
    rewrite (special_at_break y r1 _ Heq H1) in Hy. discriminate.
  - apply orb_false_elim in Ha. destruct Ha as [Hx _].
    rewrite (special_at_break x r2 _ (eq_sym Heq) H2) in Hx. discriminate.
  - apply orb_false_elim in Ha, Hb. destruct Ha as [_ Ha], Hb as [_ Hb].
    injection Heq as -> Heq.
    destruct (IH b Ha Hb H1 H2 Heq) as [-> ->]. now split.
Qed.

Lemma quoted_prefix (a b r1 r2 : string) :
  at_break r1 -> at_break r2 ->
  (csv.double_quotes a ++ String csv.quotechar r1
   = csv.double_quotes b ++ String csv.quotechar r2)%string ->
  a = b /\ r1 = r2.
Proof.
  intros H1 H2.
  revert b. induction a as [|x a IH]; intros [|y b] Heq; simpl in Heq.
  - injection Heq as ->. now split.
  - destruct (Ascii.eqb_spec y csv.quotechar) as [->|Hy]; simpl in Heq.
    + injection Heq as ->. now apply quote_not_at_break in H1.
    + injection Heq as Hq. congruence.
  - destruct (Ascii.eqb_spec x csv.quotechar) as [->|Hx]; simpl in Heq.
    + injection Heq as <-. now apply quote_not_at_break in H2.
    + injection Heq as Hq. congruence.
  - destruct (Ascii.eqb_spec x csv.quotechar) as [->|Hx],
             (Ascii.eqb_spec y csv.quotechar) as [->|Hy]; simpl in Heq.
    + injection Heq as Heq. destruct (IH b Heq) as [-> ->]. now split.
    + injection Heq as Hq. congruence.
    + injection Heq as Hq. congruence.
    + injection Heq as -> Heq. destruct (IH b Heq) as [-> ->]. now split.
Qed.

(** A written field ends where its text ends: followed by a comma or the
    end of the line, it is read back in one way only. *)
Lemma write_field_prefix (a b r1 r2 : string) :
  at_break r1 -> at_break r2 ->
  (csv.write_field a ++ r1 = csv.write_field b ++ r2)%string ->
  a = b /\ r1 = r2.
Proof.
  intros H1 H2. unfold csv.write_field.
  destruct (csv.needs_quotes a) eqn:Ha, (csv.needs_quotes b) eqn:Hb;
    simpl; rewrite ?append_assoc; simpl; intros Heq.
  - injection Heq as Heq. now apply quoted_prefix.
  - exfalso. destruct b as [|y b]; simpl in Heq.
    + rewrite <- Heq in H2. now apply quote_not_at_break in H2.
    + injection Heq as <- _. unfold csv.needs_quotes in Hb. simpl in Hb.
      discriminate Hb.
  - exfalso. destruct a as [|x a]; simpl in Heq.
    + rewrite Heq in H1. now apply quote_not_at_break in H1.
    + injection Heq as -> _. unfold csv.needs_quotes in Ha. simpl in Ha.
      discriminate Ha.
  - now apply plain_prefix.
Qed.

Lemma writerow_cons (f : string) (fields : list string) :
  csv.writerow (f :: fields)
  = (csv.write_field f
     ++ match fields with
        | [] => csv.lineterminator
        | _ :: _ => String "," (csv.writerow fields)
        end)%string.
Proof.
  unfold csv.writerow. destruct fields as [|g fields]; [reflexivity|].
  cbn [map String.concat]. rewrite append_assoc. reflexivity.
Qed.

Lemma at_break_rest (fields : list string) :
  at_break match fields with
           | [] => csv.lineterminator
           | _ :: _ => String "," (csv.writerow fields)
           end.
Proof.
  destruct fields; eexists; eexists; split; try reflexivity; auto.
Qed.

Lemma writerow_injective (fields1 fields2 : list string) :
  fields1 <> [] -> fields2 <> [] ->
  csv.writerow fields1 = csv.writerow fields2 ->
  fields1 = fields2.
Proof.
  revert fields2.
  induction fields1 as [|f1 rest1 IH]; intros [|f2 rest2] H1 H2 Heq;
    try congruence.
  rewrite !writerow_cons in Heq.
  apply write_field_prefix in Heq; try apply at_break_rest.
  destruct Heq as [-> Hrest]. f_equal.
  destruct rest1 as [|g1 rest1], rest2 as [|g2 rest2]; try discriminate Hrest.
  - reflexivity.
  - injection Hrest as Hrest. apply IH; [discriminate|discriminate|exact Hrest].
Qed.

Lemma string_of_id_injective (a b : Z) :
  NilZero.string_of_int (Z.to_int a) = NilZero.string_of_int (Z.to_int b) ->
  a = b.
Proof.
  intros H.
  assert (Hnorm : forall z, Z.to_int z <> Decimal.Pos Decimal.Nil
                            /\ Z.to_int z <> Decimal.Neg Decimal.Nil).
  { intros z.
    split; intros Hz; pose proof (f_equal Z.of_int Hz) as Hzero;
      rewrite DecimalZ.of_to in Hzero; rewrite Hzero in Hz;
      discriminate Hz. }
  apply (f_equal NilZero.int_of_string) in H.
  rewrite !NilZero.isi in H by apply Hnorm.
  injection H as H. now apply DecimalZ.to_int_inj.
Qed.

(** The line of the export tells the row: two rows of at least two fields
    that are written as the same text are the same row, whatever commas,
    quotes and line ends the fields hold; so the line of an entry gives
    its id, severity, source and message. *)
Theorem export_line_tells_the_row :
  (forall fields1 fields2 : list string,
      (2 <= List.length fields1)%nat ->
      (2 <= List.length fields2)%nat ->
      csv.writerow fields1 = csv.writerow fields2 ->
      fields1 = fields2)
  /\ forall a b : Log.t,
       csv.writerow (export_row a) = csv.writerow (export_row b) ->
       Log.id a = Log.id b
       /\ isoformat (Log.timestamp a) = isoformat (Log.timestamp b)
       /\ Log.severity a = Log.severity b
       /\ Log.source a = Log.source b
       /\ Log.message a = Log.message b.
Proof.
  split.
  - intros fields1 fields2 H1 H2. apply writerow_injective.
    + destruct fields1; [simpl in H1; lia | discriminate].
    + destruct fields2; [simpl in H2; lia | discriminate].
  - intros a b H. apply writerow_injective in H; try discriminate.
    assert (Hnth : forall n, nth n (export_row a) EmptyString
                             = nth n (export_row b) EmptyString)
      by (intros n; now rewrite H).
    pose proof (Hnth 0%nat) as Hid. pose proof (Hnth 1%nat) as Htime.
    pose proof (Hnth 2%nat) as Hsev. pose proof (Hnth 3%nat) as Hsrc.
    pose proof (Hnth 4%nat) as Hmsg.
    unfold export_row in Hid, Htime, Hsev, Hsrc, Hmsg.
    cbn [nth] in Hid, Htime, Hsev, Hsrc, Hmsg.
    split; [now apply string_of_id_injective|].
    split; [exact Htime|].
    split; [now apply severity_value_inj|].
    split; [exact Hsrc | exact Hmsg].
Qed.


(** The export writes the header and then one row for each selected
    entry, the latest timestamp first; its body is the text of these rows,
    one after the other. *)
Theorem export_rows_spec (now : datetime) (db : Database)
    (start_date end_date : option datetime) (severity : option LogSeverity)
    (source : option string) :
  exists logs response,
    export_logs_csv now db start_date end_date severity source
    = Return response
    /\ Permutation logs
         (export_selected db start_date end_date severity source)
    /\ Sorted (fun a b => Log.timestamp b <= Log.timestamp a) logs
    /\ export_rows db start_date end_date severity source
       = export_header :: map export_row logs
    /\ StreamingResponse.body response
       = (header_line
          ++ String.concat EmptyString
               (map (fun l => csv.writerow (export_row l)) logs))%string
    /\ StreamingResponse.media_type response = "text/csv".
Proof.
  eexists. eexists. split; [reflexivity|].
  split; [apply order_by_perm|]. split; [|split; [reflexivity|split]].
  - apply Sorted_weaken
      with (R := fun a b =>
                   Query.desc (Log.compare_by Log.c_timestamp) a b = true).
    + intros a b. unfold Query.desc. simpl.
      destruct (Log.timestamp a ?= Log.timestamp b) eqn:Hcmp;
        try discriminate; intros _.
      * apply Z.compare_eq in Hcmp. lia.
      * rewrite Z.compare_gt_iff in Hcmp. lia.
    + apply order_by_sorted, desc_total.
  - cbn [StreamingResponse.body]. unfold export_rows.
    rewrite map_cons, concat_cons, writerow_header, map_map. reflexivity.
  - reflexivity.
Qed.

(** ** The body of an update *)

Lemma json_get_other_member (key k : string) (v : json)
    (before after : list (string * json)) :
  k <> key ->
  json_get key (before ++ (k, v) :: after) = json_get key (before ++ after).
Proof.
  intros Hne. induction before as [|[k' v'] before IH]; simpl.
  - destruct (json_get key after); [reflexivity|].
    apply String.eqb_neq in Hne. now rewrite Hne.
  - now rewrite IH.
Qed.

(** A member of the body whose name is no field of the update payload
    changes nothing: the request with it has the outcome, and leaves the
    store, of the request without it. *)
Theorem put_log_ignores_other_members (now : datetime) (db : Database)
    (log_id : Z) (before after : list (string * json)) (k : string)
    (v : json) :
  LogUpdate_field k = false ->
  put_log now db log_id (before ++ (k, v) :: after)
  = put_log now db log_id (before ++ after).
Proof.
  intros Hk. unfold LogUpdate_field in Hk.
  apply orb_false_elim in Hk. destruct Hk as [Hk Hmd].
  apply orb_false_elim in Hk. destruct Hk as [Hk Hsrc].
  apply orb_false_elim in Hk. destruct Hk as [Hmsg Hsev].
  apply String.eqb_neq in Hmsg, Hsev, Hsrc, Hmd.
  unfold put_log, LogUpdate.model_validate.
  now rewrite !json_get_other_member by assumption.
Qed.

Lemma put_log_ignores_other_members_witness :
  LogUpdate_field "id" = false
  /\ put_log (day 19600) sample_db 1
             ([("severity", JString "ERROR")] ++ ("id", JNumber 7) :: [])
     = put_log (day 19600) sample_db 1 ([("severity", JString "ERROR")] ++ []).
Proof.
  assert (H : LogUpdate_field "id" = false) by reflexivity.
  split; [exact H|].
  exact (put_log_ignores_other_members (day 19600) sample_db 1
           [("severity", JString "ERROR")] [] "id" (JNumber 7) H).
Defined.

(** An update that gives [null] for the message or for the source of an
    entry that is there passes the model, which lets these fields be
    [null], and fails in the store, whose columns do not: the request
    ends in a server error and the store is as it was. *)
Theorem update_null_in_required_column (now : datetime) (db : Database)
    (log_id : Z) (log : Log.t) (log_data : LogUpdate.t) :
  first_by_id db log_id = Some log ->
  LogUpdate.message log_data = Given None
  \/ LogUpdate.source log_data = Given None ->
  update_log now db log_id log_data = (Raise HTTP_500_INTERNAL, db).
Proof.
  intros Hlog Hnull.
  destruct (in_int32 log_id) eqn:Hrange;
    [|unfold update_log; now rewrite Hrange].
  rewrite (update_log_found _ _ _ _ _ Hrange Hlog).
  rewrite setattr_all. unfold flush, instance_eqb, loaded.
  cbn [i_message i_severity i_source i_metadata_json].
  destruct Hnull as [-> | ->]; cbn [field_or option_eqb andb].
  - reflexivity.
  - rewrite andb_false_r. cbn [andb].
    destruct (field_or (LogUpdate.message log_data) (Some (Log.message log)));
      [|reflexivity].
    destruct (field_or (LogUpdate.severity log_data)
                       (Some (Log.severity log))); reflexivity.
Qed.

Lemma update_null_in_required_column_witness :
  first_by_id sample_db 1 = Some boot
  /\ (LogUpdate.message (LogUpdate.mk (Given None) Unset Unset Unset)
      = Given None
      \/ LogUpdate.source (LogUpdate.mk (Given None) Unset Unset Unset)
         = Given None)
  /\ update_log (day 19600) sample_db 1
                (LogUpdate.mk (Given None) Unset Unset Unset)
     = (Raise HTTP_500_INTERNAL, sample_db).
Proof.
  assert (H1 : first_by_id sample_db 1 = Some boot) by reflexivity.
  assert (H2 : LogUpdate.message (LogUpdate.mk (Given None) Unset Unset Unset)
               = Given None
               \/ LogUpdate.source
                    (LogUpdate.mk (Given None) Unset Unset Unset)
                  = Given None) by (left; reflexivity).
  split; [exact H1|]. split; [exact H2|].
  exact (update_null_in_required_column (day 19600) sample_db 1 boot _ H1 H2).
Defined.

(** ** The items of the list *)

Lemma In_firstn {A : Type} (n : nat) (l : list A) (x : A) :
  In x (firstn n l) -> In x l.
Proof.
  intros H. rewrite <- (firstn_skipn n l). apply in_or_app. now left.
Qed.

Lemma In_skipn {A : Type} (n : nat) (l : list A) (x : A) :
  In x (skipn n l) -> In x l.
Proof.
  intros H. rewrite <- (firstn_skipn n l). apply in_or_app. now right.
Qed.

(** Whenever the list answers, its items are selected entries, with the
    page and the page size of the request, and its total is the number of
    the selected entries, whatever the page. *)
Theorem list_items_are_selected (inherited : string -> bool)
    (db : Database) (page page_size : Z)
    (start_date end_date : option datetime) (severity : option LogSeverity)
    (source search : option string) (sort_by sort_order : string)
    (r : LogListResponse.t) :
  list_logs inherited db page page_size start_date end_date severity source
            search sort_by sort_order = Return r ->
  (forall l, In l (LogListResponse.items r) ->
             In l (list_selected db start_date end_date severity source
                                 search))
  /\ LogListResponse.total r
     = Query.count
         (list_selected db start_date end_date severity source search)
  /\ LogListResponse.page r = page
  /\ LogListResponse.page_size r = page_size
  /\ 1 <= page
  /\ 1 <= page_size <= 100.
Proof.
  unfold list_logs, settings.MAX_PAGE_SIZE.
  destruct (Z.leb_spec 1 page) as [Hpage|]; [|discriminate].
  destruct (Z.leb_spec 1 page_size) as [Hlo|]; [|discriminate].
  destruct (Z.leb_spec page_size 100) as [Hhi|]; [|discriminate].
  cbn [negb andb].
  destruct (getattr_Log inherited sort_by (Column Log.c_timestamp))
    as [c|]; [|discriminate].
  cbv zeta.
  destruct (int64_max <? (page - 1) * page_size); [discriminate|].
  intros [= <-].
  cbn [LogListResponse.items LogListResponse.total LogListResponse.page
       LogListResponse.page_size].
  repeat split; try assumption.
  intros l Hl. unfold Query.limit, Query.offset in Hl.
  apply In_firstn, In_skipn in Hl.
  destruct (Query.lower_string sort_order =? "asc")%string;
    now apply order_by_In in Hl.
Qed.

Lemma list_items_are_selected_witness :
  list_logs Base_attributes sample_db 1 20 None None (Some ERROR) None None
            "timestamp" "desc"
  = Return (LogListResponse.mk [crash] 1 1 20 1)
  /\ forall l, In l [crash] ->
               In l (list_selected sample_db None None (Some ERROR) None None).
Proof.
  assert (H : list_logs Base_attributes sample_db 1 20 None None (Some ERROR)
                        None None "timestamp" "desc"
              = Return (LogListResponse.mk [crash] 1 1 20 1))
    by reflexivity.
  split; [exact H|].
  exact (proj1 (list_items_are_selected _ _ _ _ _ _ _ _ _ _ _ _ H)).
Defined.

Lemma delete_log_touches_one_entry_witness :
  int32_min <= 1 <= int32_max
  /\ NoDup (map Log.id (rows sample_db))
  /\ (exists l, In l (rows sample_db) /\ Log.id l = 1)
  /\ S (List.length (rows (snd (delete_log sample_db 1))))
     = List.length (rows sample_db).
Proof.
  assert (H1 : NoDup (map Log.id (rows sample_db))).
  { repeat constructor; simpl; intuition discriminate. }
  assert (H2 : exists l, In l (rows sample_db) /\ Log.id l = 1).
  { exists boot. split; [now left | reflexivity]. }
  assert (H0 : int32_min <= 1 <= int32_max)
    by (unfold int32_min, int32_max; lia).
  split; [exact H0|]. split; [exact H1|]. split; [exact H2|].
  exact (proj2 (proj2 (proj2 (delete_log_touches_one_entry sample_db 1))
                      H0) H1 H2).
Defined.
